(** * get_github_channels.py: playlist parsing, channel filtering, task runner

    A shallow embedding of [scripts/get_github_channels.py] and the
    properties its specification states about it.

    Conventions of the embedding.
    - A Python [str] is a [string]; each character is read as the code
      point of the same number (U+0000 to U+00FF).  [splitlines], [strip]
      and [lower] are the Python methods restricted to that range.
    - A Python [dict] is an association list in insertion order, the first
      binding of a key being the live one; a value of the JSON data model
      is a [value].
    - Exceptions are values of type [exn]; code that may raise returns
      [result].  The [try]/[except] blocks of the source appear as matches
      on those results.
    - The network and the operating system are a [World] of outcomes; the
      output directory is a finite map from paths to written tables.
    - [log] prints a line and appends it to the log file; the clock, the
      console and the log file are a [Host] of outcomes, and what has been
      printed and logged is an [Output].  The source function [run_task]
      is a call to [log] followed by a [try] statement: [run_task] here is
      that [try] statement (lines 92 to 122), which always returns a line,
      and [run_task_logged] is the whole function (lines 90 to 122), out
      of which an exception of [log] propagates.
    - The worker threads share nothing but the log, and the tasks are run
      in sequence. *)

From Stdlib Require Import Floats.PrimFloat.
From Stdlib Require Import Numbers.DecimalString.
From stdpp Require Import gmap strings list.
From Stdlib Require Import Ascii NArith ZArith Lia.

Local Open Scope N_scope.
Local Open Scope nat_scope.

(** ** Characters *)

Module Char.

Definition code (c : ascii) : N := N_of_ascii c.

Definition between (lo hi : N) (c : ascii) : bool :=
  ((lo <=? code c) && (code c <=? hi))%N.

(** [str.isspace] on one character: TAB..CR, FS..US, space, NEL, NBSP. *)
Definition isspace (c : ascii) : bool :=
  between 9 13 c || between 28 32 c
  || (code c =? 133)%N || (code c =? 160)%N.

(** The characters at which [str.splitlines] breaks (CR LF is handled by
    the caller): LF, VT, FF, CR, FS, GS, RS, NEL. *)
Definition islinebreak (c : ascii) : bool :=
  between 10 13 c || between 28 30 c || (code c =? 133)%N.

(** [str.lower] on one character: A..Z and the upper-case letters of
    U+00C0..U+00DE (the multiplication sign U+00D7 is not a letter). *)
Definition isupper (c : ascii) : bool :=
  between 65 90 c || (between 192 222 c && negb (code c =? 215)%N).

Definition lower (c : ascii) : ascii :=
  if isupper c then ascii_of_N (code c + 32) else c.

Definition dquote : ascii := "034"%char.
Definition cr : ascii := "013"%char.
Definition lf : ascii := "010"%char.

(** The character class [[|/-]] of the category splitter. *)
Definition isdelim (c : ascii) : bool :=
  Ascii.eqb c "|" || Ascii.eqb c "/" || Ascii.eqb c "-".

End Char.

(** ** String methods *)

Module Str.

Definition is_empty (s : string) : bool :=
  match s with EmptyString => true | String _ _ => false end.

(** [s.startswith(p)] *)
Definition startswith (p s : string) : bool := String.prefix p s.

(** [sub in s] *)
Fixpoint contains (sub s : string) : bool :=
  startswith sub s ||
  match s with
  | EmptyString => false
  | String _ s' => contains sub s'
  end.

Fixpoint drop (n : nat) (s : string) : string :=
  match n, s with
  | S n', String _ s' => drop n' s'
  | _, _ => s
  end.

(** [s.split(sep, 1)] for a non-empty separator: one element when [sep]
    does not occur, otherwise the text before and after its first
    occurrence. *)
Fixpoint split1 (sep s : string) : list string :=
  if startswith sep s then [EmptyString; drop (String.length sep) s]
  else match s with
       | EmptyString => [EmptyString]
       | String c s' =>
           match split1 sep s' with
           | h :: t => String c h :: t
           | [] => [String c EmptyString]
           end
       end.

Fixpoint lstrip (s : string) : string :=
  match s with
  | EmptyString => EmptyString
  | String c s' => if Char.isspace c then lstrip s' else s
  end.

Fixpoint rstrip (s : string) : string :=
  match s with
  | EmptyString => EmptyString
  | String c s' =>
      let r := rstrip s' in
      if is_empty r && Char.isspace c then EmptyString else String c r
  end.

(** [s.strip()] *)
Definition strip (s : string) : string := rstrip (lstrip s).

(** [s.lower()] *)
Fixpoint lower (s : string) : string :=
  match s with
  | EmptyString => EmptyString
  | String c s' => String (Char.lower c) (lower s')
  end.

(** [sep.join(parts)] *)
Definition join (sep : string) (parts : list string) : string :=
  String.concat sep parts.

(** [text.splitlines()] *)
Fixpoint splitlines (s : string) : list string :=
  match s with
  | EmptyString => []
  | String c s' =>
      if Char.islinebreak c then
        EmptyString ::
          (if Ascii.eqb c Char.cr then
             match s' with
             | String d s'' =>
                 if Ascii.eqb d Char.lf then splitlines s'' else splitlines s'
             | EmptyString => []
             end
           else splitlines s')
      else
        match splitlines s' with
        | l :: ls => String c l :: ls
        | [] => [String c EmptyString]
        end
  end.

(** [str(n)] for a natural number. *)
Definition of_nat (n : nat) : string :=
  NilEmpty.string_of_uint (Nat.to_uint n).

End Str.

(** ** Regular expressions of the parser *)

Module Re.

(** [re.split(r'[|/-]', s)] *)
Fixpoint split_delims (s : string) : list string :=
  match s with
  | EmptyString => [EmptyString]
  | String c s' =>
      if Char.isdelim c then EmptyString :: split_delims s'
      else match split_delims s' with
           | h :: t => String c h :: t
           | [] => [String c EmptyString]
           end
  end.

(** The longest run of characters other than the double quote, when a
    double quote ends it: what the group and the closing quote of the
    pattern match at the head of [s]. *)
Fixpoint quoted (s : string) : option string :=
  match s with
  | EmptyString => None
  | String c s' =>
      if Ascii.eqb c Char.dquote then Some EmptyString
      else match quoted s' with
           | Some g => Some (String c g)
           | None => None
           end
  end.

Definition group_title_key : string :=
  "group-title=" +:+ String Char.dquote EmptyString.

(** A match of the pattern (the key, a run without quotes, a quote)
    that starts at the head of [s]. *)
Definition match_group_title (s : string) : option string :=
  if Str.startswith group_title_key s
  then quoted (Str.drop (String.length group_title_key) s)
  else None.

(** [re.search] with the group-title pattern: group 1 of the leftmost
    match, [None] when there is no match. *)
Fixpoint search_group_title (s : string) : option string :=
  match match_group_title s with
  | Some g => Some g
  | None =>
      match s with
      | EmptyString => None
      | String _ s' => search_group_title s'
      end
  end.

End Re.

(** ** Python values, dictionaries and exceptions *)

(** What [json] decoding yields, which is also what the dictionaries the
    program builds hold. *)
#[warnings="-register-all"]
Inductive value : Type :=
| VNone
| VBool (b : bool)
| VInt (z : Z)
| VFloat (f : float)
| VStr (s : string)
| VList (items : list value)
| VDict (d : list (string * value)).

Abbreviation dict := (list (string * value)).

Module Py.

Definition type_name (v : value) : string :=
  match v with
  | VNone => "NoneType"
  | VBool _ => "bool"
  | VInt _ => "int"
  | VFloat _ => "float"
  | VStr _ => "str"
  | VList _ => "list"
  | VDict _ => "dict"
  end.

(** [bool(v)] *)
Definition truthy (v : value) : bool :=
  match v with
  | VNone => false
  | VBool b => b
  | VInt z => negb (z =? 0)%Z
  | VFloat f => negb (PrimFloat.eqb f 0%float)
  | VStr s => negb (Str.is_empty s)
  | VList l => match l with [] => false | _ :: _ => true end
  | VDict d => match d with [] => false | _ :: _ => true end
  end.

(** [v == s] for a string [s]: only a string equals a string. *)
Definition eq_str (v : value) (s : string) : bool :=
  match v with
  | VStr t => String.eqb t s
  | _ => false
  end.

(** [d.get(key)], [None] standing for a missing key. *)
Fixpoint lookup (key : string) (d : dict) : option value :=
  match d with
  | [] => None
  | (k, v) :: d' => if String.eqb k key then Some v else lookup key d'
  end.

(** [d.get(key, default)] *)
Definition get (d : dict) (key : string) (default : value) : value :=
  match lookup key d with
  | Some v => v
  | None => default
  end.

(** [d.keys()], in insertion order. *)
Definition keys (d : dict) : list string := map fst d.

End Py.

Inductive exn : Type :=
| IndexError
| AttributeError (type attr : string)
| NotIterable (type : string)
| NotContainer (type : string)
| ExtraFields (fields : list string)
| Raised (text : string).

(** [str(e)], the text an f-string shows for the exception.  [Raised]
    stands for whatever the network, the decoder or the operating system
    raises, and carries its text. *)
Definition str_exn (e : exn) : string :=
  match e with
  | IndexError => "list index out of range"
  | AttributeError ty attr =>
      "'" +:+ ty +:+ "' object has no attribute '" +:+ attr +:+ "'"
  | NotIterable ty => "'" +:+ ty +:+ "' object is not iterable"
  | NotContainer ty => "argument of type '" +:+ ty +:+ "' is not iterable"
  | ExtraFields fs =>
      "dict contains fields not in fieldnames: "
      +:+ Str.join ", " (map (fun f => "'" +:+ f +:+ "'") fs)
  | Raised text => text
  end.

Abbreviation result A := (exn + A)%type.

(** ** The playlist parser *)

(** [allowed_news] is a set in the source.  The program only asks whether
    some element of it occurs in a name, which no order of the elements
    changes, so a list stands for it. *)
Definition allowed_news : list string :=
  ["MSNBC"; "CNN"; "BBC"; "CBC News"; "CTV News"].

Module M3u.

(** [any(x in s for x in words)] *)
Definition any_in (words : list string) (s : string) : bool :=
  existsb (fun x => Str.contains x s) words.

(** The [country] chain of [parse_m3u]; the empty string when no
    keyword occurs. *)
Definition derive_country (group_title : string) : string :=
  if any_in ["Canada"; "CA"] group_title then "CA"
  else if any_in ["United States"; "USA"; "US"] group_title then "US"
  else if any_in ["United Kingdom"; "UK"; "GB"] group_title then "GB"
  else if any_in ["Australia"; "AU"] group_title then "AU"
  else "".

(** [group_title] as [parse_m3u] reads it off the info line. *)
Definition group_title_of (info : string) : string :=
  match Re.search_group_title info with
  | Some g => g
  | None => ""
  end.

(** [cats], the list comprehension over the split group title. *)
Definition category_tokens (group_title : string) : list string :=
  map (fun c => Str.lower (Str.strip c)) (Re.split_delims group_title).

Definition excluded_words : list string :=
  ["sport"; "kid"; "children"; "adult"; "xxx"; "porn"].

(** How control leaves the [try] block. *)
Inductive signal : Type :=
| Raise (e : exn)
| Continue
| Fallthrough.

(** The body of the [try] block, entered with [lines[i]] an info line.
    It returns how it ends, the index and the list of channels.  The
    info line is read with [nth]: the loop enters with [i < len(lines)],
    and [lines[i-1]] is that same line again.  The line after it may be
    missing, and [lines[i]] then raises [IndexError]. *)
Definition try_block (lines : list string) (i : nat) (channels : list dict)
  : signal * nat * list dict :=
  match Str.split1 "," (nth i lines "") !! 1 with
  | None => (Raise IndexError, i, channels)
  | Some tail =>
      let name := Str.strip (hd "" (Str.split1 " tvg-" tail)) in
      let i := S i in
      match lines !! i with
      | None => (Raise IndexError, i, channels)
      | Some line =>
          let url := Str.strip line in
          if negb (Str.startswith "http" url) then (Continue, i, channels)
          else
            let group_title := group_title_of (nth (i - 1) lines "") in
            let country := derive_country group_title in
            if Str.is_empty country then (Continue, i, channels)
            else
              let cats := category_tokens group_title in
              if any_in excluded_words (Str.join " " cats)
              then (Continue, i, channels)
              else if Str.contains "news" (Str.join " " cats)
                      && negb (any_in allowed_news name)
              then (Continue, i, channels)
              else
                (Fallthrough, i,
                 channels ++ [[("name", VStr name);
                               ("country", VStr country);
                               ("group_title", VStr group_title);
                               ("url", VStr url)]])
      end
  end.

(** One turn of the [while] loop, taken with [i < len(lines)].  A
    [continue] skips the final [i += 1]; the bare [except] swallows the
    exception and falls through to it. *)
Definition iteration (lines : list string) (i : nat) (channels : list dict)
  : nat * list dict :=
  if Str.startswith "#EXTINF:" (nth i lines "") then
    match try_block lines i channels with
    | (Continue, i, channels) => (i, channels)
    | (Raise _, i, channels) => (S i, channels)
    | (Fallthrough, i, channels) => (S i, channels)
    end
  else (S i, channels).

(** The [while i < len(lines)] loop; [fuel] bounds the number of turns. *)
Fixpoint while (fuel : nat) (lines : list string) (i : nat)
    (channels : list dict) : list dict :=
  match fuel with
  | 0 => channels
  | S fuel' =>
      if i <? length lines then
        let '(i', channels') := iteration lines i channels in
        while fuel' lines i' channels'
      else channels
  end.

(** [parse_m3u] after [splitlines].  Every turn advances [i], so
    [len(lines)] turns are enough ([while_fuel] below). *)
Definition parse_lines (lines : list string) : list dict :=
  while (length lines) lines 0 [].

Definition parse_m3u (text : string) : list dict :=
  parse_lines (Str.splitlines text).

End M3u.

(** ** Code that may raise *)

Module Result.

Definition bind {A B : Type} (m : result A) (k : A -> result B) : result B :=
  match m with
  | inl e => inl e
  | inr a => k a
  end.

(** A comprehension [[f(x) for x in xs]]: the first exception ends it. *)
Fixpoint traverse {A B : Type} (f : A -> result B) (xs : list A)
  : result (list B) :=
  match xs with
  | [] => inr []
  | x :: xs' =>
      bind (f x) (fun y => bind (traverse f xs') (fun ys => inr (y :: ys)))
  end.

(** [any(f(x) for x in xs)], stopping at the first true element. *)
Fixpoint any {A : Type} (f : A -> result bool) (xs : list A) : result bool :=
  match xs with
  | [] => inr false
  | x :: xs' => bind (f x) (fun b => if b then inr true else any f xs')
  end.

End Result.

Notation "'let*' x := m 'in' k" := (Result.bind m (fun x => k))
  (at level 10, x pattern, m at level 100, k at level 200).

(** ** The JSON filter of [run_task] *)

Module Json.

(** The object [v.get] is called on: a dictionary, or [AttributeError]. *)
Definition get_method (v : value) : result dict :=
  match v with
  | VDict d => inr d
  | _ => inl (AttributeError (Py.type_name v) "get")
  end.

(** [v.lower()] *)
Definition lower_method (v : value) : result string :=
  match v with
  | VStr s => inr (Str.lower s)
  | _ => inl (AttributeError (Py.type_name v) "lower")
  end.

(** The elements a [for] over [v] visits: the items of a list, the keys
    of a dictionary, the characters of a string. *)
Definition iter (v : value) : result (list value) :=
  match v with
  | VList items => inr items
  | VDict d => inr (map VStr (Py.keys d))
  | VStr s =>
      inr (map (fun c => VStr (String c EmptyString)) (String.list_ascii_of_string s))
  | _ => inl (NotIterable (Py.type_name v))
  end.

(** [n in v] for a string [n]: substring of a string, element of a list,
    key of a dictionary. *)
Definition str_in (n : string) (v : value) : result bool :=
  match v with
  | VStr s => inr (Str.contains n s)
  | VList items => inr (existsb (fun x => Py.eq_str x n) items)
  | VDict d => inr (existsb (String.eqb n) (Py.keys d))
  | _ => inl (NotContainer (Py.type_name v))
  end.

(** [x in xs] for a list of strings. *)
Definition mem (x : string) (xs : list string) : bool :=
  existsb (String.eqb x) xs.

Definition countries : list string := ["CA"; "US"; "GB"; "AU"].
Definition excluded_categories : list string :=
  ["sports"; "kids"; "adult"; "xxx"].

(** [[l.get("code","") for l in ch.get("languages",[])]] *)
Definition language_codes (ch : dict) : result (list value) :=
  let* ls := iter (Py.get ch "languages" (VList [])) in
  Result.traverse
    (fun l => let* l := get_method l in inr (Py.get l "code" (VStr ""))) ls.

(** [[c.get("name","").lower() for c in ch.get("categories",[])]] *)
Definition category_names (ch : dict) : result (list string) :=
  let* cs := iter (Py.get ch "categories" (VList [])) in
  Result.traverse
    (fun c => let* c := get_method c in
              lower_method (Py.get c "name" (VStr ""))) cs.

(** The dictionary appended to [filtered] for a record that is kept. *)
Definition entry_of (ch : dict) : dict :=
  [("id", Py.get ch "id" (VStr ""));
   ("name", Py.get ch "name" (VStr ""));
   ("network", Py.get ch "network" (VStr ""));
   ("country", Py.get ch "country" (VStr ""));
   ("logo", Py.get ch "logo" (VStr ""))].

(** One turn of [for ch in data]: [None] for [continue], otherwise the
    dictionary appended to [filtered]. *)
Definition keep_channel (ch : value) : result (option dict) :=
  let* ch := get_method ch in
  if negb (existsb (Py.eq_str (Py.get ch "country" VNone)) countries)
  then inr None
  else
    let* codes := language_codes ch in
    if negb (existsb (fun c => Py.eq_str c "eng") codes) then inr None
    else if Py.truthy (Py.get ch "is_nsfw" VNone) then inr None
    else
      let* cats := category_names ch in
      if existsb (fun x => mem x cats) excluded_categories then inr None
      else
        let* dropped :=
          if mem "news" cats then
            let* allowed :=
              Result.any (fun n => str_in n (Py.get ch "name" (VStr "")))
                allowed_news in
            inr (negb allowed)
          else inr false in
        if dropped : bool then inr None
        else inr (Some (entry_of ch)).

(** The [for] loop over the decoded records. *)
Fixpoint filter_loop (data : list value) (filtered : list dict)
  : result (list dict) :=
  match data with
  | [] => inr filtered
  | ch :: data' =>
      let* kept := keep_channel ch in
      filter_loop data'
        match kept with
        | Some entry => filtered ++ [entry]
        | None => filtered
        end
  end.

(** [filtered] after the loop, for the decoded body [data]. *)
Definition filter_channels (data : value) : result (list dict) :=
  let* items := iter data in
  filter_loop items [].

End Json.

(** ** The CSV writer *)

Module Csv.

(** A written table: the header row and the data rows, cell by cell. *)
Record file : Type := mk_file { header : list string; rows : list (list value) }.

(** [DictWriter._dict_to_list]: a key outside [fieldnames] raises, a
    missing one is written as the empty string. *)
Definition dict_to_list (fieldnames : list string) (rowdict : dict)
  : result (list value) :=
  match List.filter (fun k => negb (Json.mem k fieldnames)) (Py.keys rowdict)
  with
  | [] => inr (map (fun k => Py.get rowdict k (VStr "")) fieldnames)
  | wrong => inl (ExtraFields wrong)
  end.

(** [w.writerows(rowdicts)] onto the rows written so far: rows are
    written one by one until one raises. *)
Fixpoint writerows (fieldnames : list string) (rowdicts : list dict)
    (written : list (list value)) : list (list value) * option exn :=
  match rowdicts with
  | [] => (written, None)
  | d :: rest =>
      match dict_to_list fieldnames d with
      | inl e => (written, Some e)
      | inr row => writerows fieldnames rest (written ++ [row])
      end
  end.

End Csv.

(** ** The task runner *)

(** What [requests.get] returns: [raise_for_status] gives the exception of
    an error status, [json] the decoded body or the decoder's exception. *)
Record Response : Type := mk_response {
  raise_for_status : option exn;
  text : string;
  json : result value
}.

(** The outside of the program: the answer to a GET of a URL, and the
    exception, if any, of opening a path for writing. *)
Record World : Type := mk_world {
  requests_get : string -> result Response;
  open_w : string -> option exn
}.

Definition BASE : string :=
  "C:\Users\Lenovo\PROJECTS\get-epg-open-epg.com\get-epg-open-epg.com".

(** [os.path.join] on the platform of [BASE], for a relative second part. *)
Definition os_path_join (a b : string) : string := a +:+ "\" +:+ b.

Definition OUTPUT_DIR : string :=
  os_path_join (os_path_join BASE "data") "output".

(** The arrow of the result line, in its UTF-8 bytes. *)
Definition arrow : string := " → ".

(** The output directory: the table written at each path. *)
Abbreviation files := (gmap string Csv.file).

(** The [with open(path, "w", ...)] block of either branch: the file is
    created by [open], then the header and the rows are written. *)
Definition write_csv (w : World) (fs : files) (path : string)
    (fieldnames : list string) (rowdicts : list dict) : files * result unit :=
  match open_w w path with
  | Some e => (fs, inl e)
  | None =>
      let '(rows, raised) := Csv.writerows fieldnames rowdicts [] in
      (<[path := Csv.mk_file fieldnames rows]> fs,
       match raised with
       | Some e => inl e
       | None => inr tt
       end)
  end.

(** The body of the [try] block of [run_task]: the files after it, and
    the string it returns or the exception that leaves it. *)
Definition try_task (w : World) (fs : files) (url filename : string)
    (is_json : bool) : files * result string :=
  match requests_get w url with
  | inl e => (fs, inl e)
  | inr r =>
      match raise_for_status r with
      | Some e => (fs, inl e)
      | None =>
          if is_json then
            match (let* data := json r in Json.filter_channels data) with
            | inl e => (fs, inl e)
            | inr filtered =>
                let path := os_path_join OUTPUT_DIR filename in
                let fieldnames :=
                  match filtered with
                  | first :: _ => Py.keys first
                  | [] => ["name"]
                  end in
                let '(fs, written) :=
                  write_csv w fs path fieldnames filtered in
                (fs,
                 let* _ := written in
                 inr (filename +:+ arrow +:+ Str.of_nat (length filtered)
                      +:+ " channels"))
            end
          else
            let chs := M3u.parse_m3u (text r) in
            let path := os_path_join OUTPUT_DIR filename in
            let '(fs, written) :=
              write_csv w fs path ["name"; "country"; "group_title"; "url"]
                chs in
            (fs,
             let* _ := written in
             inr (filename +:+ arrow +:+ Str.of_nat (length chs)
                  +:+ " channels"))
      end
  end.

(** The [try] statement of [run_task] (lines 92 to 122): [except Exception
    as e] turns the exception into the failure line.  The parameter [name]
    is read by the call to [log] alone, which comes before the [try]: see
    [run_task_logged]. *)
Definition run_task (w : World) (fs : files) (name url filename : string)
    (is_json : bool) : files * string :=
  let '(fs, r) := try_task w fs url filename is_json in
  (fs,
   match r with
   | inr line => line
   | inl e => filename +:+ " FAILED: " +:+ str_exn e
   end).

(** A configured source: name, URL, output file name, JSON flag. *)
Abbreviation task := (string * string * string * bool)%type.

Definition tasks : list task :=
  [("iptv-org JSON", "https://iptv-org.github.io/api/channels.json",
    "1_iptv-org_full.csv", true);
   ("English M3U", "https://iptv-org.github.io/iptv/languages/eng.m3u",
    "2_english_m3u.csv", false);
   ("Free-TV",
    "https://raw.githubusercontent.com/Free-TV/IPTV/master/playlist.m3u8",
    "3_free_tv.csv", false);
   ("Canada M3U", "https://iptv-org.github.io/iptv/countries/ca.m3u",
    "4_canada_kitchener.csv", false)].

Definition run (w : World) (fs : files) (t : task) : files * string :=
  let '(name, url, filename, is_json) := t in
  run_task w fs name url filename is_json.

(** The tasks of the pool, run one after the other in the order [ts]; the
    result lines come in that order. *)
Fixpoint run_all (w : World) (fs : files) (ts : list task)
  : files * list string :=
  match ts with
  | [] => (fs, [])
  | t :: ts' =>
      let '(fs, line) := run w fs t in
      let '(fs, lines) := run_all w fs ts' in
      (fs, line :: lines)
  end.

(** ** The log *)

(** The clock, the console and the log file as a call to [log] meets
    them: the text [datetime.now()] formats to, the exception, if any, of
    printing a text, and the exception, if any, of opening [LOG_FILE] and
    appending a line to it. *)
Record Host : Type := mk_host {
  now : string;
  print_raises : string -> option exn;
  append_raises : string -> option exn
}.

(** What has been printed, a text for each call of [print], and the lines
    of the log file. *)
Record Output : Type := mk_output {
  stdout : list string;
  log_file : list string
}.

(** [log(msg, level)]: the output after the call, and the exception that
    leaves it, if any.  Nothing is appended to the file when [print]
    raises. *)
Definition log (h : Host) (out : Output) (msg level : string)
  : Output * option exn :=
  let line :=
    "[" +:+ now h +:+ "] [" +:+ level +:+ "] " +:+ msg
    +:+ String Char.lf EmptyString in
  match print_raises h (Str.strip line) with
  | Some e => (out, Some e)
  | None =>
      let out := mk_output (stdout out ++ [Str.strip line]) (log_file out) in
      match append_raises h line with
      | Some e => (out, Some e)
      | None => (mk_output (stdout out) (log_file out ++ [line]), None)
      end
  end.

(** The whole of [run_task] (lines 90 to 122): the call to [log] of line
    91 with the default level, which stands before the [try] so that its
    exception leaves the function, then the [try] statement. *)
Definition run_task_logged (h : Host) (w : World) (out : Output) (fs : files)
    (name url filename : string) (is_json : bool)
  : Output * result (files * string) :=
  match log h out ("Starting" +:+ arrow +:+ name) "INFO" with
  | (out, Some e) => (out, inl e)
  | (out, None) => (out, inr (run_task w fs name url filename is_json))
  end.

(** [fut.result()] for the future of a call of [run_task]: the line the
    call returned, or the exception that left it. *)
Definition fut_result (r : Output * result (files * string)) : result string :=
  match snd r with
  | inl e => inl e
  | inr (_, line) => inr line
  end.

(** ** Words of the category tests *)

Module Word.

(** Every character of [s] satisfies [p]. *)
Fixpoint all (p : ascii -> bool) (s : string) : bool :=
  match s with
  | EmptyString => true
  | String c s' => p c && all p s'
  end.

(** A word the category tests look for: not empty, and free of white
    space and of the characters the group title is split at. *)
Definition plain (w : string) : bool :=
  negb (Str.is_empty w)
  && all (fun c => negb (Char.isspace c) && negb (Char.isdelim c)) w.

End Word.

(** ** Inputs used in examples *)

Module Examples.

Definition quote (s : string) : string :=
  String Char.dquote (s +:+ String Char.dquote EmptyString).

(** An info line with a group title and a display name. *)
Definition extinf (group_title name : string) : string :=
  "#EXTINF:-1 tvg-id=" +:+ quote "x" +:+ " group-title="
  +:+ quote group_title +:+ "," +:+ name.

(** A playlist text: the lines, each ended by a line feed. *)
Fixpoint playlist (lines : list string) : string :=
  match lines with
  | [] => EmptyString
  | l :: lines' => l +:+ String Char.lf (playlist lines')
  end.

(** The channel dictionary [parse_m3u] builds. *)
Definition channel (name country group_title url : string) : dict :=
  [("name", VStr name); ("country", VStr country);
   ("group_title", VStr group_title); ("url", VStr url)].

(** A decoded record of the channel list, with one language and one
    category. *)
Definition record (id name country language category : string)
    (is_nsfw : value) : value :=
  VDict [("id", VStr id); ("name", VStr name); ("country", VStr country);
         ("languages", VList [VDict [("code", VStr language)]]);
         ("categories", VList [VDict [("name", VStr category)]]);
         ("is_nsfw", is_nsfw)].

(** A world that answers every GET with [r] and opens every file. *)
Definition world_of (r : Response) : World :=
  mk_world (fun _ => inr r) (fun _ => None).

(** A world in which every GET times out. *)
Definition timeout_world : World :=
  mk_world (fun _ => inl (Raised "Read timed out.")) (fun _ => None).

(** A world that answers every GET with [r] and opens no file. *)
Definition read_only_world (r : Response) : World :=
  mk_world (fun _ => inr r) (fun _ => Some (Raised "Permission denied")).

(** A world in which only the GET of [url] is answered, with [r]. *)
Definition world_with (url : string) (r : Response) : World :=
  mk_world
    (fun u => if String.eqb u url then inr r else inl (Raised "Read timed out."))
    (fun _ => None).

(** A world in which the Free-TV playlist times out while the other three
    sources answer: an empty channel list, a playlist of one channel. *)
Definition free_tv_down : World :=
  mk_world
    (fun u =>
       if String.eqb u
            "https://raw.githubusercontent.com/Free-TV/IPTV/master/playlist.m3u8"
       then inl (Raised "Read timed out.")
       else inr (mk_response None
                   (playlist [extinf "Canada" "CBC"; "http://cbc"])
                   (inr (VList []))))
    (fun _ => None).

(** The entry the JSON filter emits for a record with these fields and
    neither network nor logo. *)
Definition entry (id name country : string) : dict :=
  [("id", VStr id); ("name", VStr name); ("network", VStr "");
   ("country", VStr country); ("logo", VStr "")].

(** A host on which every text is printed and every line is logged. *)
Definition utf8_console : Host :=
  mk_host "2025-01-01 12:00:00" (fun _ => None) (fun _ => None).

(** A host whose console cannot encode the arrow: printing a text that
    holds it raises. *)
Definition cp1252_console : Host :=
  mk_host "2025-01-01 12:00:00"
    (fun text =>
       if Str.contains "→" text
       then Some (Raised "'charmap' codec can't encode character")
       else None)
    (fun _ => None).

(** A host whose log file cannot be opened. *)
Definition locked_log : Host :=
  mk_host "2025-01-01 12:00:00" (fun _ => None)
    (fun _ => Some (Raised "Permission denied")).

(** Nothing printed and nothing logged yet. *)
Definition no_output : Output := mk_output [] [].

End Examples.

(** * Properties *)

(** ** Strings *)

Section StringFacts.

Lemma startswith_nil (s : string) : Str.startswith "" s = true.
Proof. destruct s; reflexivity. Qed.

Lemma startswith_cons (a b : ascii) (p s : string) :
  Str.startswith (String a p) (String b s) = true ->
  a = b /\ Str.startswith p s = true.
Proof.
  unfold Str.startswith. simpl. destruct (ascii_dec a b); [tauto|discriminate].
Qed.

Lemma startswith_app (p s : string) : Str.startswith p (p +:+ s) = true.
Proof.
  induction p as [|c p IH].
  - apply startswith_nil.
  - change (String c p +:+ s) with (String c (p +:+ s)).
    unfold Str.startswith in *; simpl. rewrite IH.
    destruct (ascii_dec c c); congruence.
Qed.

Lemma contains_startswith (sub s : string) :
  Str.startswith sub s = true -> Str.contains sub s = true.
Proof. intros H. destruct s; cbn [Str.contains]; rewrite H; reflexivity. Qed.

Lemma contains_app_r (sub a s : string) :
  Str.contains sub s = true -> Str.contains sub (a +:+ s) = true.
Proof.
  intros H. induction a as [|c a IH]; [exact H|].
  change (String c a +:+ s) with (String c (a +:+ s)).
  cbn [Str.contains]. rewrite IH. apply orb_true_r.
Qed.

(** [sub in a + sub + b] *)
Lemma contains_middle (sub a b : string) :
  Str.contains sub (a +:+ sub +:+ b) = true.
Proof. apply contains_app_r, contains_startswith, startswith_app. Qed.

Lemma contains_prefix (sub b : string) : Str.contains sub (sub +:+ b) = true.
Proof. apply (contains_middle sub "" b). Qed.

Lemma startswith_nonempty (p s : string) :
  p <> "" -> Str.startswith p s = true -> s <> "".
Proof. intros Hp H ->. destruct p; [congruence | discriminate]. Qed.

(** A line that starts with a character that is not white space keeps
    it under [strip]. *)
Lemma strip_head (c : ascii) (s : string) :
  Char.isspace c = false -> exists s', Str.strip (String c s) = String c s'.
Proof.
  intros Hc. unfold Str.strip. simpl. rewrite Hc. simpl. rewrite Hc.
  rewrite andb_false_r. eauto.
Qed.

Lemma startswith_rstrip (p s : string) :
  Str.startswith p (Str.rstrip s) = true -> Str.startswith p s = true.
Proof.
  revert p. induction s as [|c s IH]; intros [|a p]; try done.
  cbn [Str.rstrip].
  destruct (Str.is_empty (Str.rstrip s) && Char.isspace c); [done|].
  intros H. apply startswith_cons in H as [<- H]. apply IH in H.
  unfold Str.startswith in *. simpl. by destruct (ascii_dec a a).
Qed.


Lemma marker_is_no_url (line : string) :
  Str.startswith "#EXTINF:" line = true ->
  Str.startswith "http" (Str.strip line) = false.
Proof.
  intros H. destruct line as [|c line]; [discriminate|].
  apply (startswith_cons "#" c "EXTINF:") in H as [<- _].
  destruct (strip_head "#"%char line eq_refl) as [s' ->]. reflexivity.
Qed.

End StringFacts.

(** ** The scanning loop *)

Section LoopFacts.

Import M3u.

Lemma nth_drop_add (lines : list string) (i j : nat) :
  nth j (drop i lines) "" = nth (i + j) lines "".
Proof.
  revert lines; induction i as [|i IH]; intros [|l lines]; simpl; auto.
  destruct j; reflexivity.
Qed.

(** The [try] block at [i] reads [lines[i]] and [lines[i+1]] only: it
    does at [i] what it does at the head of the lines from [i] on. *)
Lemma try_block_shift (lines : list string) (i : nat) (chs : list dict) :
  try_block lines i chs =
  let '(sg, k, new) := try_block (drop i lines) 0 [] in
  (sg, i + k, chs ++ new).
Proof.
  unfold try_block.
  rewrite (nth_drop_add lines i 0), Nat.add_0_r.
  destruct (Str.split1 "," (nth i lines "") !! 1) as [tail|];
    [|by cbv beta iota zeta; rewrite Nat.add_0_r, app_nil_r].
  rewrite (lookup_drop lines i 1), Nat.add_1_r.
  destruct (lines !! S i) as [line|];
    [|by cbv beta iota zeta; rewrite Nat.add_1_r, app_nil_r].
  rewrite (nth_drop_add lines i (1 - 1)).
  replace (i + (1 - 1)) with (S i - 1) by lia.
  repeat case_match; simplify_eq;
    by cbv beta iota zeta; rewrite ?Nat.add_1_r, ?app_nil_r.
Qed.

Lemma iteration_shift (lines : list string) (i : nat) (chs : list dict) :
  iteration lines i chs =
  let '(k, new) := iteration (drop i lines) 0 [] in (i + k, chs ++ new).
Proof.
  unfold iteration.
  rewrite (nth_drop_add lines i 0), Nat.add_0_r, (try_block_shift lines i chs).
  destruct (Str.startswith "#EXTINF:" (nth i lines ""));
    [|by rewrite Nat.add_1_r, app_nil_r].
  destruct (try_block (drop i lines) 0 []) as [[[e| |] k] new];
    by cbv beta iota zeta; rewrite ?Nat.add_succ_r.
Qed.

(** Every turn moves the index forward by one or two lines. *)
Lemma iteration_advance (lines : list string) (k : nat) (new : list dict) :
  iteration lines 0 [] = (k, new) -> 1 <= k <= 2.
Proof.
  unfold iteration, try_block.
  repeat case_match; intros; simplify_eq; lia.
Qed.

(** The loop from [i] with enough fuel appends to [chs] what the loop
    yields on the lines from [i] on. *)
Lemma while_shift (n fuel : nat) (lines : list string) (i : nat)
    (chs : list dict) :
  length lines - i <= n -> n <= fuel ->
  while fuel lines i chs = chs ++ while n (drop i lines) 0 [].
Proof.
  revert fuel lines i chs.
  induction n as [|n IH]; intros fuel lines i chs Hlen Hfuel.
  - rewrite app_nil_r.
    destruct fuel; simpl; [done|].
    by destruct (Nat.ltb_spec i (length lines)); [lia|].
  - destruct fuel as [|fuel]; [lia|]. simpl.
    rewrite length_drop.
    destruct (Nat.ltb_spec i (length lines)) as [Hi|Hi];
      destruct (Nat.ltb_spec 0 (length lines - i)); try lia;
      [|by rewrite app_nil_r].
    rewrite (iteration_shift lines i chs).
    destruct (iteration (drop i lines) 0 []) as [k new] eqn:Hit.
    apply iteration_advance in Hit.
    rewrite (IH fuel lines (i + k) (chs ++ new)) by lia.
    rewrite (IH n (drop i lines) k new) by (rewrite ?length_drop; lia).
    by rewrite drop_drop, app_assoc.
Qed.

(** Fuel beyond the number of lines changes nothing. *)
Lemma while_fuel (fuel : nat) (lines : list string) :
  length lines <= fuel -> while fuel lines 0 [] = parse_lines lines.
Proof.
  intros H. unfold parse_lines.
  rewrite (while_shift (length lines) fuel lines 0 []) by lia.
  by rewrite drop_0.
Qed.

(** The loop, one turn at a time: the first turn, then the parse of the
    lines it did not consume. *)
Lemma parse_lines_step (l : string) (lines : list string) :
  parse_lines (l :: lines) =
  let '(k, new) := iteration (l :: lines) 0 [] in
  new ++ parse_lines (drop k (l :: lines)).
Proof.
  unfold parse_lines at 1. simpl.
  destruct (iteration (l :: lines) 0 []) as [k new] eqn:Hit.
  pose proof (iteration_advance _ _ _ Hit).
  rewrite (while_shift (length lines) (length lines) (l :: lines) k new)
    by (simpl; lia).
  f_equal. apply while_fuel. rewrite length_drop. simpl. lia.
Qed.

Lemma parse_lines_nil : parse_lines [] = [].
Proof. reflexivity. Qed.

End LoopFacts.

(** ** What the [try] block can do *)

Section TryBlockFacts.

Import M3u.

Lemma derive_country_cases (g : string) :
  derive_country g = "" \/ In (derive_country g) ["CA"; "US"; "GB"; "AU"].
Proof.
  unfold derive_country. repeat case_match; simpl; tauto.
Qed.

(** The [try] block either leaves the channels as they are, or appends
    the one channel of the entry after every gate has let it through. *)
Lemma try_block_inv (lines : list string) (i : nat) (chs : list dict)
    (sg : signal) (i' : nat) (chs' : list dict) :
  try_block lines i chs = (sg, i', chs') ->
  chs' = chs \/
  exists tail line,
    Str.split1 "," (nth i lines "") !! 1 = Some tail /\
    lines !! S i = Some line /\
    let name := Str.strip (hd "" (Str.split1 " tvg-" tail)) in
    let url := Str.strip line in
    let group_title := group_title_of (nth i lines "") in
    let country := derive_country group_title in
    let joined := Str.join " " (category_tokens group_title) in
    sg = Fallthrough /\ i' = S i /\
    Str.startswith "http" url = true /\
    Str.is_empty country = false /\
    any_in excluded_words joined = false /\
    (Str.contains "news" joined = true -> any_in allowed_news name = true) /\
    chs' = chs ++ [[("name", VStr name); ("country", VStr country);
                    ("group_title", VStr group_title); ("url", VStr url)]].
Proof.
  unfold try_block.
  destruct (Str.split1 "," (nth i lines "") !! 1) as [tail|];
    [|intros [= <- <- <-]; by left].
  destruct (lines !! S i) as [line|]; [|intros [= <- <- <-]; by left].
  replace (S i - 1) with i by lia.
  destruct (Str.startswith "http" (Str.strip line)) eqn:Hurl;
    [|intros [= <- <- <-]; by left].
  destruct (Str.is_empty _) eqn:Hc; [intros [= <- <- <-]; by left|].
  destruct (any_in excluded_words _) eqn:Hx; [intros [= <- <- <-]; by left|].
  destruct (Str.contains "news" _) eqn:Hn;
    [destruct (any_in allowed_news _) eqn:Ha|];
    cbn [negb andb]; intros [= <- <- <-]; try (by left);
    right; exists tail, line; cbv zeta; rewrite ?Hurl, ?Hc, ?Hx, ?Hn, ?Ha;
    repeat split; done.
Qed.

(** A turn of the loop appends at most the channel of its entry. *)
Lemma iteration_inv (lines : list string) (i : nat) (chs : list dict)
    (i' : nat) (chs' : list dict) :
  iteration lines i chs = (i', chs') ->
  chs' = chs \/ exists sg k, try_block lines i chs = (sg, k, chs').
Proof.
  unfold iteration.
  destruct (Str.startswith "#EXTINF:" (nth i lines ""));
    [|intros [= <- <-]; by left].
  destruct (try_block lines i chs) as [[sg k] new].
  destruct sg; intros [= <- <-]; right; eauto.
Qed.

(** A property of the channels that every turn preserves holds of all
    the channels the loop returns. *)
Lemma while_Forall (P : dict -> Prop) (fuel : nat) (lines : list string) :
  (forall i chs i' chs',
      iteration lines i chs = (i', chs') -> Forall P chs -> Forall P chs') ->
  forall i chs, Forall P chs -> Forall P (while fuel lines i chs).
Proof.
  intros Hstep. induction fuel as [|fuel IH]; intros i chs Hchs; simpl; [done|].
  destruct (i <? length lines); [|done].
  destruct (iteration lines i chs) as [i' chs'] eqn:Hit.
  eapply IH, Hstep; eauto.
Qed.

End TryBlockFacts.

(** ** Emitted playlist channels *)

Section EmittedChannels.

Import M3u.

(** C2.  Every channel that [parse_m3u] returns, for any playlist text,
    has a [url] field that is not empty and starts with [http], and a
    [country] field that is one of CA, US, GB, AU. *)
Theorem parse_m3u_url_and_country (text : string) (ch : dict) :
  In ch (parse_m3u text) ->
  exists url country,
    Py.lookup "url" ch = Some (VStr url) /\
    url <> "" /\
    Str.startswith "http" url = true /\
    Py.lookup "country" ch = Some (VStr country) /\
    In country ["CA"; "US"; "GB"; "AU"].
Proof.
  intros Hin. unfold parse_m3u, parse_lines in Hin.
  revert ch Hin. apply List.Forall_forall.
  apply while_Forall; [|constructor].
  intros i chs i' chs' Hit Hchs.
  apply iteration_inv in Hit as [->|(sg & k & Htry)]; [done|].
  apply try_block_inv in Htry
    as [->|(tail & line & _ & _ & _ & _ & Hurl & Hc & _ & _ & ->)]; [done|].
  apply Forall_app; split; [done|]. constructor; [|constructor].
  eexists _, _. repeat split; [|exact Hurl|].
  - by apply (startswith_nonempty "http").
  - destruct (derive_country_cases
                (group_title_of (nth i (Str.splitlines text) ""))) as [E|E];
      [by rewrite E in Hc | exact E].
Qed.

Lemma parse_m3u_url_and_country_witness :
  exists url country,
    Py.lookup "url" (Examples.channel "CBC" "CA" "Canada" "http://cbc")
      = Some (VStr url) /\
    url <> "" /\
    Str.startswith "http" url = true /\
    Py.lookup "country" (Examples.channel "CBC" "CA" "Canada" "http://cbc")
      = Some (VStr country) /\
    In country ["CA"; "US"; "GB"; "AU"].
Proof.
  apply (parse_m3u_url_and_country
           (Examples.playlist
              ["#EXTM3U"; Examples.extinf "Canada" "CBC"; "http://cbc"])).
  vm_compute. left. reflexivity.
Defined.

End EmittedChannels.

(** ** Turns of the loop that emit nothing *)

Section SkippedEntries.

Import M3u.

Lemma nth_of_lookup (lines : list string) (i : nat) (l : string) :
  lines !! i = Some l -> nth i lines "" = l.
Proof. intros H. by rewrite nth_lookup, H. Qed.

(** A line that is no info line is stepped over. *)
Lemma iteration_other_line (lines : list string) (i : nat) (chs : list dict)
    (l : string) :
  lines !! i = Some l -> Str.startswith "#EXTINF:" l = false ->
  iteration lines i chs = (S i, chs).
Proof.
  intros Hl Hm. unfold iteration. by rewrite (nth_of_lookup _ _ _ Hl), Hm.
Qed.

(** [split(",", 1)] has no element 1 when there is no comma. *)
Lemma split1_no_sep (sep s : string) :
  Str.contains sep s = false -> Str.split1 sep s !! 1 = None.
Proof.
  induction s as [|c s IH]; cbn [Str.contains Str.split1]; intros H;
    apply orb_false_elim in H as [Hp Hc]; rewrite Hp; [done|].
  specialize (IH Hc). by destruct (Str.split1 sep s) as [|h t].
Qed.

(** An info line without a comma raises before [i] is touched; the bare
    [except] then lets the loop go on at the next line. *)
Lemma try_block_no_comma (lines : list string) (i : nat) (chs : list dict)
    (bad : string) :
  lines !! i = Some bad -> Str.contains "," bad = false ->
  try_block lines i chs = (Raise IndexError, i, chs).
Proof.
  intros Hl Hc. unfold try_block.
  by rewrite (nth_of_lookup _ _ _ Hl), (split1_no_sep _ _ Hc).
Qed.

Lemma iteration_no_comma (lines : list string) (i : nat) (chs : list dict)
    (bad : string) :
  lines !! i = Some bad -> Str.contains "," bad = false ->
  iteration lines i chs = (S i, chs).
Proof.
  intros Hl Hc. unfold iteration.
  rewrite (try_block_no_comma _ _ _ _ Hl Hc). by case_match.
Qed.

(** An info line followed by a line that is no URL: whether the name could
    be read or not, the loop goes on at that following line. *)
Lemma iteration_rejected_url (lines : list string) (i : nat)
    (chs : list dict) (info line : string) :
  lines !! i = Some info -> Str.startswith "#EXTINF:" info = true ->
  lines !! S i = Some line ->
  Str.startswith "http" (Str.strip line) = false ->
  iteration lines i chs = (S i, chs).
Proof.
  intros Hl Hm Hn Hurl. unfold iteration, try_block.
  rewrite (nth_of_lookup _ _ _ Hl), Hm, Hn, Hurl.
  by destruct (Str.split1 "," info !! 1).
Qed.

(** An info line at the very end of the lines emits nothing. *)
Lemma iteration_last_line (lines : list string) (i : nat) (chs : list dict) :
  lines !! S i = None -> snd (iteration lines i chs) = chs.
Proof.
  intros Hn. unfold iteration, try_block. rewrite Hn.
  by repeat case_match; simplify_eq.
Qed.

(** An entry whose group title names no country emits nothing. *)
Lemma iteration_no_country (lines : list string) (i : nat) (chs : list dict)
    (info : string) :
  lines !! i = Some info ->
  derive_country (group_title_of info) = "" ->
  snd (iteration lines i chs) = chs.
Proof.
  intros Hl Hc.
  destruct (iteration lines i chs) as [i' chs'] eqn:Hit; simpl.
  apply iteration_inv in Hit as [->|(sg & k & Htry)]; [done|].
  apply try_block_inv in Htry
    as [->|(tail & line & _ & _ & _ & _ & _ & Hne & _)]; [done|].
  rewrite (nth_of_lookup _ _ _ Hl), Hc in Hne. discriminate.
Qed.

(** An entry whose category tokens hold an excluded word emits nothing. *)
Lemma iteration_excluded (lines : list string) (i : nat) (chs : list dict)
    (info : string) :
  lines !! i = Some info ->
  any_in excluded_words
    (Str.join " " (category_tokens (group_title_of info))) = true ->
  snd (iteration lines i chs) = chs.
Proof.
  intros Hl Hx.
  destruct (iteration lines i chs) as [i' chs'] eqn:Hit; simpl.
  apply iteration_inv in Hit as [->|(sg & k & Htry)]; [done|].
  apply try_block_inv in Htry
    as [->|(tail & line & _ & _ & _ & _ & _ & _ & Hnx & _)]; [done|].
  rewrite (nth_of_lookup _ _ _ Hl), Hx in Hnx. discriminate.
Qed.

(** The first turn looks at the first two lines only. *)
Lemma iteration_two_lines (a b : string) (l1 l2 : list string) :
  iteration (a :: b :: l1) 0 [] = iteration (a :: b :: l2) 0 [].
Proof. reflexivity. Qed.

(** An info line without a comma splits the parse in two independent
    parses: of the lines before it and of the lines after it. *)
Lemma parse_lines_around_no_comma (bad : string) (rest : list string) :
  Str.startswith "#EXTINF:" bad = true -> Str.contains "," bad = false ->
  forall pre,
    parse_lines (pre ++ bad :: rest) = parse_lines pre ++ parse_lines rest.
Proof.
  intros Hm Hc.
  assert (Hbad : parse_lines (bad :: rest) = parse_lines rest).
  { rewrite parse_lines_step.
    by rewrite (iteration_no_comma (bad :: rest) 0 [] bad). }
  intros pre. remember (length pre) as n eqn:Hn.
  revert pre Hn. induction (lt_wf n) as [n _ IH]. intros pre ->.
  destruct pre as [|l [|l2 pre]].
  - done.
  - change ([l] ++ bad :: rest) with (l :: bad :: rest).
    rewrite !parse_lines_step.
    assert (iteration (l :: bad :: rest) 0 [] = (1, [])) as ->.
    { destruct (Str.startswith "#EXTINF:" l) eqn:Hl.
      - apply (iteration_rejected_url _ 0 [] l bad); try done.
        by apply marker_is_no_url.
      - by apply (iteration_other_line _ 0 [] l). }
    pose proof (iteration_last_line [l] 0 [] eq_refl) as Hlast.
    destruct (iteration [l] 0 []) as [k new] eqn:Hit. simpl in Hlast.
    apply iteration_advance in Hit. subst new.
    replace (drop k [l]) with (@nil string)
      by (destruct k as [|[|k]]; [lia|done|done]).
    change (drop 1 (l :: bad :: rest)) with (bad :: rest).
    by rewrite Hbad, parse_lines_nil.
  - change ((l :: l2 :: pre) ++ bad :: rest)
      with (l :: l2 :: (pre ++ bad :: rest)).
    rewrite !parse_lines_step.
    rewrite (iteration_two_lines l l2 (pre ++ bad :: rest) pre).
    destruct (iteration (l :: l2 :: pre) 0 []) as [k new] eqn:Hit.
    apply iteration_advance in Hit.
    rewrite <- app_assoc. f_equal.
    change (l :: l2 :: pre ++ bad :: rest)
      with ((l :: l2 :: pre) ++ bad :: rest).
    rewrite drop_app_le by (simpl; lia).
    eapply IH; [|reflexivity]. rewrite length_drop. simpl. lia.
Qed.

End SkippedEntries.

(** ** Turns of the loop that emit a channel *)

Section EmittedEntries.

Import M3u.

(** An entry that passes every test is appended, and the index ends on
    its URL line. *)
Lemma try_block_emits (lines : list string) (i : nat) (chs : list dict)
    (info tail line : string) :
  lines !! i = Some info ->
  Str.split1 "," info !! 1 = Some tail ->
  lines !! S i = Some line ->
  Str.startswith "http" (Str.strip line) = true ->
  derive_country (group_title_of info) <> "" ->
  any_in excluded_words
    (Str.join " " (category_tokens (group_title_of info))) = false ->
  (Str.contains "news"
     (Str.join " " (category_tokens (group_title_of info))) = true ->
   any_in allowed_news (Str.strip (hd "" (Str.split1 " tvg-" tail))) = true) ->
  try_block lines i chs =
  (Fallthrough, S i,
   chs ++ [Examples.channel (Str.strip (hd "" (Str.split1 " tvg-" tail)))
             (derive_country (group_title_of info)) (group_title_of info)
             (Str.strip line)]).
Proof.
  intros Hl Ht Hn Hurl Hc Hx Hnews. unfold try_block.
  rewrite (nth_of_lookup _ _ _ Hl), Ht, Hn, Hurl.
  replace (S i - 1) with i by lia.
  rewrite (nth_of_lookup _ _ _ Hl), Hx.
  cbn [negb].
  destruct (Str.is_empty (derive_country (group_title_of info))) eqn:He.
  { destruct (derive_country (group_title_of info)); [done|discriminate]. }
  destruct (Str.contains "news" _) eqn:Hnw; [|done].
  by rewrite (Hnews eq_refl).
Qed.

Lemma iteration_emits (lines : list string) (i : nat) (chs : list dict)
    (info tail line : string) :
  lines !! i = Some info ->
  Str.startswith "#EXTINF:" info = true ->
  Str.split1 "," info !! 1 = Some tail ->
  lines !! S i = Some line ->
  Str.startswith "http" (Str.strip line) = true ->
  derive_country (group_title_of info) <> "" ->
  any_in excluded_words
    (Str.join " " (category_tokens (group_title_of info))) = false ->
  (Str.contains "news"
     (Str.join " " (category_tokens (group_title_of info))) = true ->
   any_in allowed_news (Str.strip (hd "" (Str.split1 " tvg-" tail))) = true) ->
  iteration lines i chs =
  (S (S i),
   chs ++ [Examples.channel (Str.strip (hd "" (Str.split1 " tvg-" tail)))
             (derive_country (group_title_of info)) (group_title_of info)
             (Str.strip line)]).
Proof.
  intros Hl Hm Ht Hn Hurl Hc Hx Hnews. unfold iteration.
  rewrite (nth_of_lookup _ _ _ Hl), Hm.
  by rewrite (try_block_emits _ _ _ info tail line).
Qed.

(** The turn before an info line never consumes it. *)
Lemma iteration_before_marker (l info : string) (rest : list string) :
  Str.startswith "#EXTINF:" info = true ->
  iteration (l :: info :: rest) 0 [] = (1, []).
Proof.
  intros Hm. destruct (Str.startswith "#EXTINF:" l) eqn:Hl.
  - apply (iteration_rejected_url _ 0 [] l info); try done.
    by apply marker_is_no_url.
  - by apply (iteration_other_line _ 0 [] l).
Qed.

(** Every entry that passes the tests is among the parsed channels,
    wherever it stands in the lines. *)
Lemma parse_lines_complete (info tail line : string) :
  Str.startswith "#EXTINF:" info = true ->
  Str.split1 "," info !! 1 = Some tail ->
  Str.startswith "http" (Str.strip line) = true ->
  derive_country (group_title_of info) <> "" ->
  any_in excluded_words
    (Str.join " " (category_tokens (group_title_of info))) = false ->
  (Str.contains "news"
     (Str.join " " (category_tokens (group_title_of info))) = true ->
   any_in allowed_news (Str.strip (hd "" (Str.split1 " tvg-" tail))) = true) ->
  forall lines i,
    lines !! i = Some info -> lines !! S i = Some line ->
    In (Examples.channel (Str.strip (hd "" (Str.split1 " tvg-" tail)))
          (derive_country (group_title_of info)) (group_title_of info)
          (Str.strip line))
       (parse_lines lines).
Proof.
  intros Hm Ht Hurl Hc Hx Hnews lines.
  remember (length lines) as n eqn:Hn.
  revert lines Hn. induction (lt_wf n) as [n _ IH]. intros lines -> i Hl Hnx.
  destruct lines as [|l rest]; [done|].
  rewrite parse_lines_step.
  destruct i as [|j].
  - rewrite (iteration_emits _ 0 [] info tail line) by done.
    apply in_or_app. left. by left.
  - destruct (iteration (l :: rest) 0 []) as [k new] eqn:Hit.
    apply in_or_app. right.
    pose proof (iteration_advance _ _ _ Hit) as Hk.
    destruct rest as [|l2 rest]; [done|].
    destruct k as [|[|[|k]]]; try lia.
    + change (drop 1 (l :: l2 :: rest)) with (l2 :: rest).
      apply (IH (length (l2 :: rest)) ltac:(simpl; lia) _ eq_refl j);
        done.
    + destruct j as [|j].
      * simpl in Hl. simplify_eq.
        rewrite (iteration_before_marker l info rest Hm) in Hit.
        discriminate.
      * change (drop 2 (l :: l2 :: rest)) with rest.
        apply (IH (length rest) ltac:(simpl; lia) _ eq_refl j); done.
Qed.

End EmittedEntries.

(** ** Letter case and the category tokens *)

Section LetterCase.

Import M3u.

Local Ltac by_cases_on c :=
  destruct c as [[] [] [] [] [] [] [] []]; vm_compute; reflexivity.

Lemma char_lower_idemp (c : ascii) : Char.lower (Char.lower c) = Char.lower c.
Proof. by_cases_on c. Qed.

Lemma char_isspace_lower (c : ascii) :
  Char.isspace (Char.lower c) = Char.isspace c.
Proof. by_cases_on c. Qed.

Lemma char_isdelim_lower (c : ascii) :
  Char.isdelim (Char.lower c) = Char.isdelim c.
Proof. by_cases_on c. Qed.

Lemma lower_idemp (s : string) : Str.lower (Str.lower s) = Str.lower s.
Proof.
  induction s as [|c s IH]; simpl; [done|]. by rewrite char_lower_idemp, IH.
Qed.

Lemma is_empty_lower (s : string) : Str.is_empty (Str.lower s) = Str.is_empty s.
Proof. by destruct s. Qed.

Lemma lstrip_lower (s : string) : Str.lstrip (Str.lower s) = Str.lower (Str.lstrip s).
Proof.
  induction s as [|c s IH]; simpl; [done|].
  rewrite char_isspace_lower. by destruct (Char.isspace c).
Qed.

Lemma rstrip_lower (s : string) : Str.rstrip (Str.lower s) = Str.lower (Str.rstrip s).
Proof.
  induction s as [|c s IH]; simpl; [done|].
  rewrite IH, is_empty_lower, char_isspace_lower.
  by destruct (Str.is_empty (Str.rstrip s) && Char.isspace c).
Qed.

Lemma strip_lower (s : string) : Str.strip (Str.lower s) = Str.lower (Str.strip s).
Proof. unfold Str.strip. by rewrite lstrip_lower, rstrip_lower. Qed.

Lemma split_delims_lower (s : string) :
  Re.split_delims (Str.lower s) = map Str.lower (Re.split_delims s).
Proof.
  induction s as [|c s IH]; simpl; [done|].
  rewrite char_isdelim_lower, IH.
  destruct (Char.isdelim c); [done|].
  by destruct (Re.split_delims s).
Qed.

(** The category tokens of a group title are those of its lower-cased
    form: the category gates never see the letter case. *)
Lemma category_tokens_lower (g : string) :
  category_tokens (Str.lower g) = category_tokens g.
Proof.
  unfold category_tokens. rewrite split_delims_lower, map_map.
  apply map_ext. intros c. by rewrite strip_lower, lower_idemp.
Qed.

End LetterCase.

(** ** The country of a playlist entry *)

Section Country.

Import M3u.

(** C4.  The country of a playlist entry is read off its group title by
    substring tests in a fixed order: a Canada keyword gives CA; failing
    that, a US keyword gives US; failing that, a UK keyword gives GB;
    failing that, an Australia keyword gives AU.  The channel an entry
    emits carries that country.  When no keyword occurs the country is
    empty and the turn of the loop for that entry emits no channel. *)
Theorem country_by_keyword_priority :
  (forall g, any_in ["Canada"; "CA"] g = true -> derive_country g = "CA") /\
  (forall g,
      any_in ["Canada"; "CA"] g = false ->
      any_in ["United States"; "USA"; "US"] g = true ->
      derive_country g = "US") /\
  (forall g,
      any_in ["Canada"; "CA"] g = false ->
      any_in ["United States"; "USA"; "US"] g = false ->
      any_in ["United Kingdom"; "UK"; "GB"] g = true ->
      derive_country g = "GB") /\
  (forall g,
      any_in ["Canada"; "CA"] g = false ->
      any_in ["United States"; "USA"; "US"] g = false ->
      any_in ["United Kingdom"; "UK"; "GB"] g = false ->
      any_in ["Australia"; "AU"] g = true ->
      derive_country g = "AU") /\
  (forall lines i chs i' ch,
      iteration lines i chs = (i', chs ++ [ch]) ->
      exists info,
        lines !! i = Some info /\
        Py.lookup "country" ch
          = Some (VStr (derive_country (group_title_of info)))) /\
  (forall lines i chs info,
      lines !! i = Some info ->
      any_in ["Canada"; "CA"] (group_title_of info) = false ->
      any_in ["United States"; "USA"; "US"] (group_title_of info) = false ->
      any_in ["United Kingdom"; "UK"; "GB"] (group_title_of info) = false ->
      any_in ["Australia"; "AU"] (group_title_of info) = false ->
      derive_country (group_title_of info) = "" /\
      snd (iteration lines i chs) = chs).
Proof.
  repeat apply conj.
  - intros g H. unfold derive_country. by rewrite H.
  - intros g H1 H2. unfold derive_country. by rewrite H1, H2.
  - intros g H1 H2 H3. unfold derive_country. by rewrite H1, H2, H3.
  - intros g H1 H2 H3 H4. unfold derive_country. by rewrite H1, H2, H3, H4.
  - intros lines i chs i' ch Hit.
    apply iteration_inv in Hit as [Heq|(sg & k & Htry)].
    { apply (f_equal length) in Heq. rewrite length_app in Heq.
      simpl in Heq. lia. }
    apply try_block_inv in Htry as [Heq|(tail & line & _ & Hn & Hrec)].
    { apply (f_equal length) in Heq. rewrite length_app in Heq.
      simpl in Heq. lia. }
    cbv zeta in Hrec. destruct Hrec as (_ & _ & _ & _ & _ & _ & Heq).
    apply app_inv_head in Heq. injection Heq as ->.
    destruct (lines !! i) as [info|] eqn:Hl.
    + exists info. by rewrite (nth_of_lookup _ _ _ Hl).
    + apply lookup_ge_None in Hl. apply lookup_lt_Some in Hn. lia.
  - intros lines i chs info Hl H1 H2 H3 H4.
    assert (derive_country (group_title_of info) = "") as Hc
        by (unfold derive_country; by rewrite H1, H2, H3, H4).
    split; [exact Hc|]. by apply (iteration_no_country _ _ _ info).
Qed.

Lemma country_by_keyword_priority_witness :
  derive_country "USA;Canada" = "CA" /\
  derive_country "UK;US" = "US" /\
  derive_country "AU;GB" = "GB" /\
  derive_country "Australia" = "AU" /\
  (exists info,
      [Examples.extinf "UK;US" "PBS"; "http://pbs"] !! 0 = Some info /\
      Py.lookup "country" (Examples.channel "PBS" "US" "UK;US" "http://pbs")
      = Some (VStr (derive_country (group_title_of info)))) /\
  (derive_country (group_title_of (Examples.extinf "Mexico" "Canal 5")) = "" /\
   snd (iteration [Examples.extinf "Mexico" "Canal 5"; "http://c5"] 0 []) = []).
Proof.
  destruct country_by_keyword_priority
    as (Hca & Hus & Hgb & Hau & Hrec & Hnone).
  repeat apply conj.
  - apply Hca. reflexivity.
  - apply Hus; reflexivity.
  - apply Hgb; reflexivity.
  - apply Hau; reflexivity.
  - apply (Hrec [Examples.extinf "UK;US" "PBS"; "http://pbs"] 0 [] 2).
    vm_compute. reflexivity.
  - apply (Hnone [Examples.extinf "Mexico" "Canal 5"; "http://c5"] 0 []
             (Examples.extinf "Mexico" "Canal 5")); reflexivity.
  - apply (Hnone [Examples.extinf "Mexico" "Canal 5"; "http://c5"] 0 []
             (Examples.extinf "Mexico" "Canal 5")); reflexivity.
Defined.

(** C9.  Country detection reads the group title as it is spelled.  For
    an entry whose group title holds a country keyword in another letter
    case only (lower-casing both makes it occur, but no keyword occurs as
    spelled), the country stays empty and the turn emits no channel; so
    it is for the group titles canada and usa.  The category gates, by
    contrast, see the group title lower-cased. *)
Theorem country_keywords_are_case_sensitive :
  (forall lines i chs info kw,
      lines !! i = Some info ->
      In kw ["Canada"; "CA"; "United States"; "USA"; "US";
             "United Kingdom"; "UK"; "GB"; "Australia"; "AU"] ->
      Str.contains (Str.lower kw) (Str.lower (group_title_of info)) = true ->
      (forall k,
          In k ["Canada"; "CA"; "United States"; "USA"; "US";
                "United Kingdom"; "UK"; "GB"; "Australia"; "AU"] ->
          Str.contains k (group_title_of info) = false) ->
      derive_country (group_title_of info) = "" /\
      snd (iteration lines i chs) = chs) /\
  derive_country "canada" = "" /\
  derive_country "usa" = "" /\
  parse_m3u (Examples.playlist [Examples.extinf "canada" "CBC"; "http://cbc"])
    = [] /\
  parse_m3u (Examples.playlist [Examples.extinf "usa" "PBS"; "http://pbs"])
    = [] /\
  (forall g, category_tokens (Str.lower g) = category_tokens g).
Proof.
  repeat apply conj.
  - intros lines i chs info kw Hl _ _ Hnone.
    assert (derive_country (group_title_of info) = "") as Hc.
    { unfold derive_country, any_in. simpl.
      rewrite !Hnone by (simpl; tauto). reflexivity. }
    split; [exact Hc|]. by apply (iteration_no_country _ _ _ info).
  - reflexivity.
  - reflexivity.
  - vm_compute. reflexivity.
  - vm_compute. reflexivity.
  - apply category_tokens_lower.
Qed.

Lemma country_keywords_are_case_sensitive_witness :
  derive_country (group_title_of (Examples.extinf "canada" "CBC")) = "" /\
  snd (iteration [Examples.extinf "canada" "CBC"; "http://cbc"] 0 []) = [].
Proof.
  apply (proj1 country_keywords_are_case_sensitive
           [Examples.extinf "canada" "CBC"; "http://cbc"] 0 []
           (Examples.extinf "canada" "CBC") "Canada").
  - reflexivity.
  - simpl. tauto.
  - vm_compute. reflexivity.
  - intros k Hk. simpl in Hk.
    repeat (destruct Hk as [<-|Hk]; [vm_compute; reflexivity|]). destruct Hk.
Defined.

End Country.

(** ** Malformed entries and the resumption of the scan *)

Section Resumption.

Import M3u.

(** C5.  An info line without a comma makes the [try] block raise
    [IndexError]; the bare [except] swallows it, no channel is appended
    and the loop goes on at the next line.  So for every playlist text
    that holds such a line, [parse_m3u] returns (it is a total function,
    nothing is raised to the caller) the channels of the lines before it
    followed by all the channels of the lines after it; and every entry
    after that line which is well formed (an info line with a comma
    followed by a URL line, passing the country, exclusion and news
    tests) has its channel among the channels returned.  On a playlist of
    a CBC entry, an info line without comma with its URL, and a Film4
    entry, the parser returns the CBC and the Film4 channels. *)
Theorem no_comma_entry_is_skipped :
  (forall lines i chs bad,
      lines !! i = Some bad ->
      Str.startswith "#EXTINF:" bad = true ->
      Str.contains "," bad = false ->
      try_block lines i chs = (Raise IndexError, i, chs) /\
      iteration lines i chs = (S i, chs)) /\
  (forall text pre bad rest,
      Str.splitlines text = pre ++ bad :: rest ->
      Str.startswith "#EXTINF:" bad = true ->
      Str.contains "," bad = false ->
      parse_m3u text = parse_lines pre ++ parse_lines rest) /\
  (forall text pre bad rest j info tail line,
      Str.splitlines text = pre ++ bad :: rest ->
      Str.startswith "#EXTINF:" bad = true ->
      Str.contains "," bad = false ->
      rest !! j = Some info ->
      rest !! S j = Some line ->
      Str.startswith "#EXTINF:" info = true ->
      Str.split1 "," info !! 1 = Some tail ->
      Str.startswith "http" (Str.strip line) = true ->
      derive_country (group_title_of info) <> "" ->
      any_in excluded_words
        (Str.join " " (category_tokens (group_title_of info))) = false ->
      (Str.contains "news"
         (Str.join " " (category_tokens (group_title_of info))) = true ->
       any_in allowed_news (Str.strip (hd "" (Str.split1 " tvg-" tail)))
       = true) ->
      In (Examples.channel (Str.strip (hd "" (Str.split1 " tvg-" tail)))
            (derive_country (group_title_of info)) (group_title_of info)
            (Str.strip line))
         (parse_m3u text)) /\
  parse_m3u
    (Examples.playlist
       [Examples.extinf "Canada" "CBC"; "http://cbc";
        "#EXTINF:-1 no display name"; "http://lost";
        Examples.extinf "UK" "Film4"; "http://film4"])
  = [Examples.channel "CBC" "CA" "Canada" "http://cbc";
     Examples.channel "Film4" "GB" "UK" "http://film4"] /\
  parse_m3u
    (Examples.playlist
       ["#EXTINF:-1 no display name";
        Examples.extinf "UK" "Film4"; "http://film4"])
  = [Examples.channel "Film4" "GB" "UK" "http://film4"].
Proof.
  repeat apply conj; [| | |vm_compute; reflexivity|vm_compute; reflexivity].
  - intros lines i chs bad Hl _ Hc. split.
    + by apply (try_block_no_comma _ _ _ bad).
    + by apply (iteration_no_comma _ _ _ bad).
  - intros text pre bad rest Hsplit Hm Hc. unfold parse_m3u.
    rewrite Hsplit. by apply parse_lines_around_no_comma.
  - intros text pre bad rest j info tail line Hsplit Hm Hc Hinfo Hline
      Hmarker Htail Hurl Hcountry Hexcl Hnews.
    unfold parse_m3u. rewrite Hsplit.
    rewrite (parse_lines_around_no_comma bad rest Hm Hc pre).
    apply in_or_app. right.
    by apply (parse_lines_complete info tail line) with (i := j).
Qed.

Lemma no_comma_entry_is_skipped_witness :
  (try_block ["#EXTINF:-1 no display name"; "http://lost"] 0 []
   = (Raise IndexError, 0, []) /\
   iteration ["#EXTINF:-1 no display name"; "http://lost"] 0 [] = (1, [])) /\
  parse_m3u
    (Examples.playlist
       [Examples.extinf "Canada" "CBC"; "http://cbc";
        "#EXTINF:-1 no display name"; "http://lost";
        Examples.extinf "UK" "Film4"; "http://film4"])
  = [Examples.channel "CBC" "CA" "Canada" "http://cbc"]
    ++ [Examples.channel "Film4" "GB" "UK" "http://film4"] /\
  In (Examples.channel "Film4" "GB" "UK" "http://film4")
     (parse_m3u
        (Examples.playlist
           [Examples.extinf "Canada" "CBC"; "http://cbc";
            "#EXTINF:-1 no display name"; "http://lost";
            Examples.extinf "UK" "Film4"; "http://film4"])).
Proof.
  destruct no_comma_entry_is_skipped as (Hturn & Hparse & Hlater & _).
  repeat apply conj.
  - apply (Hturn _ 0 [] "#EXTINF:-1 no display name"); reflexivity.
  - apply (Hturn _ 0 [] "#EXTINF:-1 no display name"); reflexivity.
  - change ([Examples.channel "CBC" "CA" "Canada" "http://cbc"]
            ++ [Examples.channel "Film4" "GB" "UK" "http://film4"])
      with (parse_lines [Examples.extinf "Canada" "CBC"; "http://cbc"]
            ++ parse_lines
                 ["http://lost"; Examples.extinf "UK" "Film4";
                  "http://film4"]).
    apply (Hparse _ _ "#EXTINF:-1 no display name");
      vm_compute; reflexivity.
  - apply (Hlater _ [Examples.extinf "Canada" "CBC"; "http://cbc"]
             "#EXTINF:-1 no display name"
             ["http://lost"; Examples.extinf "UK" "Film4"; "http://film4"]
             1 (Examples.extinf "UK" "Film4") "Film4" "http://film4");
      try (vm_compute; reflexivity).
    + vm_compute. discriminate.
    + intros Hnews. vm_compute in Hnews. discriminate.
Defined.



End Resumption.

(** ** Case-insensitive category exclusion *)

Section CategoryExclusion.

Import M3u.

(** C8.  Category exclusion does not depend on letter case: two group
    titles that are equal once lower-cased have the same category tokens,
    hence the same verdict of the exclusion gate.  The gate excludes both
    Sports|CA and SPORTS|ca: the turn of the loop for an entry with
    either group title emits no channel, whatever the lines around it,
    and a playlist of one such entry with an http URL parses to no
    channel. *)
Theorem category_exclusion_ignores_case :
  (forall g1 g2,
      Str.lower g1 = Str.lower g2 ->
      category_tokens g1 = category_tokens g2 /\
      any_in excluded_words (Str.join " " (category_tokens g1))
      = any_in excluded_words (Str.join " " (category_tokens g2))) /\
  any_in excluded_words (Str.join " " (category_tokens "Sports|CA")) = true /\
  any_in excluded_words (Str.join " " (category_tokens "SPORTS|ca")) = true /\
  (forall lines i chs info,
      lines !! i = Some info ->
      group_title_of info = "Sports|CA" \/ group_title_of info = "SPORTS|ca" ->
      snd (iteration lines i chs) = chs) /\
  parse_m3u
    (Examples.playlist [Examples.extinf "Sports|CA" "TSN"; "http://tsn"])
  = [] /\
  parse_m3u
    (Examples.playlist [Examples.extinf "SPORTS|ca" "TSN"; "http://tsn"])
  = [].
Proof.
  repeat apply conj.
  - intros g1 g2 Hlow.
    assert (category_tokens g1 = category_tokens g2) as ->; [|done].
    by rewrite <- (category_tokens_lower g1), Hlow, category_tokens_lower.
  - reflexivity.
  - reflexivity.
  - intros lines i chs info Hl Hg.
    apply (iteration_excluded _ _ _ info Hl).
    by destruct Hg as [-> | ->].
  - vm_compute. reflexivity.
  - vm_compute. reflexivity.
Qed.

Lemma category_exclusion_ignores_case_witness :
  (category_tokens "Sports|CA" = category_tokens "SPORTS|ca" /\
   any_in excluded_words (Str.join " " (category_tokens "Sports|CA"))
   = any_in excluded_words (Str.join " " (category_tokens "SPORTS|ca"))) /\
  snd (iteration [Examples.extinf "Sports|CA" "TSN"; "http://tsn"] 0 []) = [].
Proof.
  destruct category_exclusion_ignores_case as (Hcase & _ & _ & Hturn & _).
  split.
  - apply (Hcase "Sports|CA" "SPORTS|ca"). reflexivity.
  - apply (Hturn _ 0 [] (Examples.extinf "Sports|CA" "TSN")).
    + reflexivity.
    + left. vm_compute. reflexivity.
Defined.

End CategoryExclusion.

(** ** The JSON filter *)

Section JsonFacts.

Import Json.

Lemma traverse_In {A B : Type} (f : A -> result B) (xs : list A)
    (ys : list B) (y : B) :
  Result.traverse f xs = inr ys -> In y ys ->
  exists x, In x xs /\ f x = inr y.
Proof.
  revert ys. induction xs as [|x xs IH]; intros ys; simpl.
  - intros [= <-] [].
  - destruct (f x) as [e|y0] eqn:Hx; simpl; [done|].
    destruct (Result.traverse f xs) as [e|ys0]; simpl; [done|].
    intros [= <-] [<-|Hin]; [by eauto|].
    destruct (IH ys0 eq_refl Hin) as (x' & ? & ?). eauto.
Qed.

Lemma traverse_all {A B : Type} (f : A -> result B) (xs : list A)
    (ys : list B) (x : A) :
  Result.traverse f xs = inr ys -> In x xs ->
  exists y, In y ys /\ f x = inr y.
Proof.
  revert ys. induction xs as [|x0 xs IH]; intros ys; simpl; [by intros _ []|].
  destruct (f x0) as [e|y0] eqn:Hx; simpl; [done|].
  destruct (Result.traverse f xs) as [e|ys0]; simpl; [done|].
  intros [= <-] [<-|Hin]; [by exists y0; simpl; eauto|].
  destruct (IH ys0 eq_refl Hin) as (y & ? & ?). exists y. simpl. eauto.
Qed.

Lemma mem_In (x : string) (xs : list string) : mem x xs = true <-> In x xs.
Proof.
  unfold mem. rewrite existsb_exists. split.
  - intros (y & Hy & Heq). apply String.eqb_eq in Heq. by subst.
  - intros Hx. exists x. split; [done|]. apply String.eqb_refl.
Qed.

Lemma eq_str_true (v : value) (s : string) :
  Py.eq_str v s = true <-> v = VStr s.
Proof.
  destruct v; simpl; try (split; [discriminate|congruence]).
  rewrite String.eqb_eq. split; congruence.
Qed.

(** [any] over the allowlist, for a name that is a string, is the
    substring test of the playlist path. *)
Lemma any_str_in (nm : string) (ns : list string) :
  Result.any (fun n => str_in n (VStr nm)) ns = inr (M3u.any_in ns nm).
Proof.
  induction ns as [|n ns IH]; simpl; [done|].
  destruct (Str.contains n nm); simpl; [done|exact IH].
Qed.

(** A record is kept only after every gate has let it through. *)
Lemma keep_channel_inv (v : value) (entry : dict) :
  keep_channel v = inr (Some entry) ->
  exists ch codes cats,
    v = VDict ch /\
    existsb (Py.eq_str (Py.get ch "country" VNone)) countries = true /\
    language_codes ch = inr codes /\
    existsb (fun c => Py.eq_str c "eng") codes = true /\
    Py.truthy (Py.get ch "is_nsfw" VNone) = false /\
    category_names ch = inr cats /\
    existsb (fun x => mem x cats) excluded_categories = false /\
    (mem "news" cats = true ->
     Result.any (fun n => str_in n (Py.get ch "name" (VStr ""))) allowed_news
     = inr true) /\
    entry = entry_of ch.
Proof.
  unfold keep_channel.
  destruct v as [| | | | |items|ch]; cbn [get_method Result.bind];
    try discriminate.
  destruct (existsb (Py.eq_str (Py.get ch "country" VNone)) countries)
    eqn:Hcountry; cbn [negb]; [|discriminate].
  destruct (language_codes ch) as [e|codes] eqn:Hcodes; cbn [Result.bind];
    [discriminate|].
  destruct (existsb (fun c => Py.eq_str c "eng") codes) eqn:Heng; cbn [negb];
    [|discriminate].
  destruct (Py.truthy (Py.get ch "is_nsfw" VNone)) eqn:Hnsfw; [discriminate|].
  destruct (category_names ch) as [e|cats] eqn:Hcats; cbn [Result.bind];
    [discriminate|].
  destruct (existsb (fun x => mem x cats) excluded_categories) eqn:Hexcl;
    [discriminate|].
  destruct (mem "news" cats) eqn:Hnews.
  - destruct (Result.any _ allowed_news) as [e|[]] eqn:Hany;
      cbn [Result.bind negb]; try discriminate.
    intros [= <-]. exists ch, codes, cats. by repeat split.
  - cbn [Result.bind]. intros [= <-]. exists ch, codes, cats.
    repeat split; try done. congruence.
Qed.

(** The loop appends to [filtered] only records it kept. *)
Lemma filter_loop_inv (data : list value) (acc out : list dict) :
  filter_loop data acc = inr out ->
  exists new,
    out = acc ++ new /\
    forall entry, In entry new ->
      exists v, In v data /\ keep_channel v = inr (Some entry).
Proof.
  revert acc. induction data as [|v data IH]; intros acc; simpl.
  - intros [= <-]. exists []. by rewrite app_nil_r.
  - destruct (keep_channel v) as [e|[entry|]] eqn:Hk; simpl; [done| |].
    + intros H. apply IH in H as (new & -> & Hnew).
      exists (entry :: new). rewrite <- app_assoc. split; [done|].
      intros e' [<-|Hin]; [by eauto|].
      destruct (Hnew e' Hin) as (v' & ? & ?). eauto.
    + intros H. apply IH in H as (new & -> & Hnew).
      exists new. split; [done|].
      intros e' Hin. destruct (Hnew e' Hin) as (v' & ? & ?). eauto.
Qed.

End JsonFacts.

Section JsonGates.

Import Json.

Lemma get_lookup (d : dict) (k : string) (default v : value) :
  Py.get d k default = v -> v <> default -> Py.lookup k d = Some v.
Proof.
  unfold Py.get. destruct (Py.lookup k d); intros; [congruence|done].
Qed.

Lemma lookup_get (d : dict) (k : string) (default v : value) :
  Py.lookup k d = Some v -> Py.get d k default = v.
Proof. unfold Py.get. by intros ->. Qed.

Lemma country_gate (ch : dict) :
  existsb (Py.eq_str (Py.get ch "country" VNone)) countries = true ->
  exists c, Py.lookup "country" ch = Some (VStr c) /\ In c countries.
Proof.
  rewrite existsb_exists. intros (c & Hin & Heq).
  apply eq_str_true in Heq. exists c. split; [|done].
  by apply (get_lookup _ _ VNone).
Qed.

Lemma language_gate (ch : dict) (codes : list value) :
  language_codes ch = inr codes ->
  existsb (fun c => Py.eq_str c "eng") codes = true ->
  exists ls l,
    iter (Py.get ch "languages" (VList [])) = inr ls /\
    In (VDict l) ls /\
    Py.lookup "code" l = Some (VStr "eng").
Proof.
  unfold language_codes.
  destruct (iter _) as [e|ls]; cbn [Result.bind]; [done|].
  intros Htr Hex. apply existsb_exists in Hex as (c & Hin & Heq).
  apply eq_str_true in Heq. subst c.
  destruct (traverse_In _ _ _ _ Htr Hin) as (x & Hx & Hfx).
  destruct x as [| | | | | |l]; try discriminate.
  exists ls, l. repeat split; try done.
  cbn [get_method Result.bind] in Hfx. injection Hfx as Hfx.
  by apply (get_lookup _ _ (VStr "")).
Qed.

Lemma category_gate (ch : dict) (cats : list string) :
  category_names ch = inr cats ->
  existsb (fun x => mem x cats) excluded_categories = false ->
  exists cs,
    iter (Py.get ch "categories" (VList [])) = inr cs /\
    forall c, In c cs ->
      exists cd nm,
        c = VDict cd /\
        Py.get cd "name" (VStr "") = VStr nm /\
        In (Str.lower nm) cats /\
        ~ In (Str.lower nm) excluded_categories.
Proof.
  unfold category_names.
  destruct (iter _) as [e|cs]; cbn [Result.bind]; [done|].
  intros Htr Hex. exists cs. split; [done|]. intros c Hc.
  destruct (traverse_all _ _ _ _ Htr Hc) as (y & Hy & Hfc).
  destruct c as [| | | | | |cd]; try discriminate.
  cbn [get_method Result.bind] in Hfc.
  destruct (Py.get cd "name" (VStr "")) as [| | | |nm| |] eqn:Hnm;
    try discriminate.
  injection Hfc as <-. exists cd, nm. repeat split; try done.
  intros Hbad.
  assert (existsb (fun x => mem x cats) excluded_categories = true);
    [|congruence].
  apply existsb_exists. exists (Str.lower nm). split; [done|].
  by apply mem_In.
Qed.

(** C3.  Every entry the JSON filter emits, for any list of decoded
    records, is the projection of a record of that list which passed all
    the gates: its country is one of CA, US, GB, AU; one of its languages
    has the code eng; its NSFW flag is not true (it is absent or falsy; if
    it is a boolean it is false); and none of its category names, once
    lower-cased, is sports, kids, adult or xxx. *)
Theorem json_entries_passed_every_gate
    (data : list value) (filtered : list dict) (entry : dict) :
  filter_channels (VList data) = inr filtered ->
  In entry filtered ->
  exists ch,
    In (VDict ch) data /\
    entry = entry_of ch /\
    (exists c,
        Py.lookup "country" ch = Some (VStr c) /\
        In c ["CA"; "US"; "GB"; "AU"]) /\
    (exists ls l,
        iter (Py.get ch "languages" (VList [])) = inr ls /\
        In (VDict l) ls /\
        Py.lookup "code" l = Some (VStr "eng")) /\
    Py.truthy (Py.get ch "is_nsfw" VNone) = false /\
    (forall b, Py.lookup "is_nsfw" ch = Some (VBool b) -> b = false) /\
    (exists cs,
        iter (Py.get ch "categories" (VList [])) = inr cs /\
        forall c, In c cs ->
          exists cd nm,
            c = VDict cd /\
            Py.get cd "name" (VStr "") = VStr nm /\
            ~ In (Str.lower nm) ["sports"; "kids"; "adult"; "xxx"]).
Proof.
  unfold filter_channels. cbn [iter Result.bind]. intros Hloop Hin.
  apply filter_loop_inv in Hloop as (new & -> & Hnew).
  destruct (Hnew entry Hin) as (v & Hv & Hkeep).
  apply keep_channel_inv in Hkeep
    as (ch & codes & cats & -> & Hc & Hcodes & Heng & Hnsfw & Hcats & Hexcl
        & _ & ->).
  exists ch. repeat split; try done.
  - by apply country_gate.
  - by apply (language_gate ch codes).
  - intros b Hb. by rewrite (lookup_get _ _ VNone _ Hb) in Hnsfw.
  - destruct (category_gate ch cats Hcats Hexcl) as (cs & Hcs & Hall).
    exists cs. split; [done|]. intros c Hc'.
    destruct (Hall c Hc') as (cd & nm & ? & ? & _ & ?). eauto.
Qed.

End JsonGates.

Lemma json_entries_passed_every_gate_witness :
  exists ch,
    In (VDict ch)
      [Examples.record "TSN.ca" "TSN" "CA" "eng" "Sports" (VBool false);
       Examples.record "Film4.uk" "Film4" "GB" "eng" "Movies" (VBool false)] /\
    Examples.entry "Film4.uk" "Film4" "GB" = Json.entry_of ch /\
    (exists c,
        Py.lookup "country" ch = Some (VStr c) /\
        In c ["CA"; "US"; "GB"; "AU"]) /\
    (exists ls l,
        Json.iter (Py.get ch "languages" (VList [])) = inr ls /\
        In (VDict l) ls /\
        Py.lookup "code" l = Some (VStr "eng")) /\
    Py.truthy (Py.get ch "is_nsfw" VNone) = false /\
    (forall b, Py.lookup "is_nsfw" ch = Some (VBool b) -> b = false) /\
    (exists cs,
        Json.iter (Py.get ch "categories" (VList [])) = inr cs /\
        forall c, In c cs ->
          exists cd nm,
            c = VDict cd /\
            Py.get cd "name" (VStr "") = VStr nm /\
            ~ In (Str.lower nm) ["sports"; "kids"; "adult"; "xxx"]).
Proof.
  apply (json_entries_passed_every_gate _
           [Examples.entry "Film4.uk" "Film4" "GB"]).
  - vm_compute. reflexivity.
  - left. reflexivity.
Defined.

(** ** The news allowlist *)

Section NewsAllowlist.

Import M3u.

Lemma any_in_exists (words : list string) (s : string) :
  any_in words s = true <-> exists n, In n words /\ Str.contains n s = true.
Proof. unfold any_in. apply existsb_exists. Qed.

Lemma any_in_none (words : list string) (s : string) :
  (forall n, In n words -> Str.contains n s = false) -> any_in words s = false.
Proof.
  intros H. destruct (any_in words s) eqn:E; [|done].
  apply any_in_exists in E as (n & Hn & Hc). by rewrite (H n Hn) in Hc.
Qed.

Lemma is_empty_false (s : string) : s <> "" -> Str.is_empty s = false.
Proof. by destruct s. Qed.

(** A record that passed the country, language, NSFW and category gates
    is kept or dropped by the news rule alone. *)
Lemma keep_channel_past_gates (ch : dict) (codes : list value)
    (cats : list string) :
  existsb (Py.eq_str (Py.get ch "country" VNone)) Json.countries = true ->
  Json.language_codes ch = inr codes ->
  In (VStr "eng") codes ->
  Py.truthy (Py.get ch "is_nsfw" VNone) = false ->
  Json.category_names ch = inr cats ->
  (forall x, In x ["sports"; "kids"; "adult"; "xxx"] -> ~ In x cats) ->
  Json.keep_channel (VDict ch) =
  if Json.mem "news" cats then
    let* allowed :=
      Result.any (fun n => Json.str_in n (Py.get ch "name" (VStr "")))
        allowed_news in
    if allowed then inr (Some (Json.entry_of ch)) else inr None
  else inr (Some (Json.entry_of ch)).
Proof.
  intros Hc Hcodes Heng Hnsfw Hcats Hexcl.
  unfold Json.keep_channel. cbn [Json.get_method Result.bind].
  rewrite Hc, Hcodes. cbn [negb Result.bind].
  assert (existsb (fun c => Py.eq_str c "eng") codes = true) as ->.
  { apply existsb_exists. exists (VStr "eng"). split; [done|].
    by apply eq_str_true. }
  rewrite Hnsfw, Hcats. cbn [negb Result.bind].
  assert (existsb (fun x => Json.mem x cats) Json.excluded_categories
          = false) as ->.
  { destruct (existsb _ Json.excluded_categories) eqn:E; [|done].
    apply existsb_exists in E as (x & Hx & Hm).
    apply mem_In in Hm. by destruct (Hexcl x Hx). }
  destruct (Json.mem "news" cats); [|done].
  destruct (Result.any _ allowed_news) as [e|[]]; done.
Qed.

(** [n in v] raises for a value that is no string, list or dictionary. *)
Lemma any_str_in_scalar (v : value) :
  (forall s, v <> VStr s) -> (forall l, v <> VList l) ->
  (forall d, v <> VDict d) ->
  Result.any (fun n => Json.str_in n v) allowed_news
  = inl (NotContainer (Py.type_name v)).
Proof.
  intros Hs Hl Hd. destruct v; try done.
  - by destruct (Hs s).
  - by destruct (Hl items).
  - by destruct (Hd d).
Qed.

(** C1, as the code has it.  The news rule tests whether the display name
    contains an allowlisted name, not whether it equals one.
    Playlist path: when the joined lower-cased category string contains
    news, an entry emits a channel only if its display name contains one
    of MSNBC, CNN, BBC, CBC News, CTV News, and is dropped when it
    contains none; when it does not contain news, the entry is emitted
    whenever the URL, country and exclusion gates pass, whatever its name.
    JSON path: when a lower-cased category name equals news, a record with
    a string name is kept only if that name contains an allowlisted name;
    when none equals news, a record that passes the other gates is kept,
    whatever its name.  A record of a news category that passed the other
    gates is dropped when its name is a string that contains no
    allowlisted name, and kept when it contains one; when its name is
    null, a boolean or a number, the membership test raises, which ends
    the filter with that exception. *)
Theorem news_needs_an_allowlisted_substring :
  (forall lines i chs sg i' ch info,
      lines !! i = Some info ->
      try_block lines i chs = (sg, i', chs ++ [ch]) ->
      Str.contains "news"
        (Str.join " " (category_tokens (group_title_of info))) = true ->
      exists name n,
        Py.lookup "name" ch = Some (VStr name) /\
        In n ["MSNBC"; "CNN"; "BBC"; "CBC News"; "CTV News"] /\
        Str.contains n name = true) /\
  (forall lines i chs info tail line,
      lines !! i = Some info ->
      Str.split1 "," info !! 1 = Some tail ->
      lines !! S i = Some line ->
      Str.contains "news"
        (Str.join " " (category_tokens (group_title_of info))) = true ->
      (forall n,
          In n ["MSNBC"; "CNN"; "BBC"; "CBC News"; "CTV News"] ->
          Str.contains n (Str.strip (hd "" (Str.split1 " tvg-" tail)))
          = false) ->
      try_block lines i chs = (Continue, S i, chs)) /\
  (forall lines i chs info tail line,
      lines !! i = Some info ->
      Str.split1 "," info !! 1 = Some tail ->
      lines !! S i = Some line ->
      Str.contains "news"
        (Str.join " " (category_tokens (group_title_of info))) = false ->
      Str.startswith "http" (Str.strip line) = true ->
      derive_country (group_title_of info) <> "" ->
      any_in excluded_words
        (Str.join " " (category_tokens (group_title_of info))) = false ->
      try_block lines i chs
      = (Fallthrough, S i,
         chs ++ [Examples.channel
                   (Str.strip (hd "" (Str.split1 " tvg-" tail)))
                   (derive_country (group_title_of info))
                   (group_title_of info) (Str.strip line)])) /\
  (forall ch entry cats name,
      Json.keep_channel (VDict ch) = inr (Some entry) ->
      Json.category_names ch = inr cats ->
      In "news" cats ->
      Py.get ch "name" (VStr "") = VStr name ->
      exists n,
        In n ["MSNBC"; "CNN"; "BBC"; "CBC News"; "CTV News"] /\
        Str.contains n name = true) /\
  (forall ch codes cats,
      existsb (Py.eq_str (Py.get ch "country" VNone)) Json.countries = true ->
      Json.language_codes ch = inr codes ->
      In (VStr "eng") codes ->
      Py.truthy (Py.get ch "is_nsfw" VNone) = false ->
      Json.category_names ch = inr cats ->
      (forall x, In x ["sports"; "kids"; "adult"; "xxx"] -> ~ In x cats) ->
      ~ In "news" cats ->
      Json.keep_channel (VDict ch) = inr (Some (Json.entry_of ch))) /\
  (forall ch codes cats name,
      existsb (Py.eq_str (Py.get ch "country" VNone)) Json.countries = true ->
      Json.language_codes ch = inr codes ->
      In (VStr "eng") codes ->
      Py.truthy (Py.get ch "is_nsfw" VNone) = false ->
      Json.category_names ch = inr cats ->
      (forall x, In x ["sports"; "kids"; "adult"; "xxx"] -> ~ In x cats) ->
      In "news" cats ->
      Py.get ch "name" (VStr "") = VStr name ->
      (forall n,
          In n ["MSNBC"; "CNN"; "BBC"; "CBC News"; "CTV News"] ->
          Str.contains n name = false) ->
      Json.keep_channel (VDict ch) = inr None) /\
  (forall ch codes cats name n,
      existsb (Py.eq_str (Py.get ch "country" VNone)) Json.countries = true ->
      Json.language_codes ch = inr codes ->
      In (VStr "eng") codes ->
      Py.truthy (Py.get ch "is_nsfw" VNone) = false ->
      Json.category_names ch = inr cats ->
      (forall x, In x ["sports"; "kids"; "adult"; "xxx"] -> ~ In x cats) ->
      In "news" cats ->
      Py.get ch "name" (VStr "") = VStr name ->
      In n ["MSNBC"; "CNN"; "BBC"; "CBC News"; "CTV News"] ->
      Str.contains n name = true ->
      Json.keep_channel (VDict ch) = inr (Some (Json.entry_of ch))) /\
  (forall ch codes cats v,
      existsb (Py.eq_str (Py.get ch "country" VNone)) Json.countries = true ->
      Json.language_codes ch = inr codes ->
      In (VStr "eng") codes ->
      Py.truthy (Py.get ch "is_nsfw" VNone) = false ->
      Json.category_names ch = inr cats ->
      (forall x, In x ["sports"; "kids"; "adult"; "xxx"] -> ~ In x cats) ->
      In "news" cats ->
      Py.get ch "name" (VStr "") = v ->
      (forall s, v <> VStr s) ->
      (forall l, v <> VList l) ->
      (forall d, v <> VDict d) ->
      Json.keep_channel (VDict ch) = inl (NotContainer (Py.type_name v))) /\
  Json.filter_channels
    (VList [Examples.record "RNC.us" "Random News Ch" "US" "eng" "News"
              (VBool false);
            Examples.record "BBCWorld.uk" "BBC World News" "GB" "eng" "News"
              (VBool false)])
  = inr [Examples.entry "BBCWorld.uk" "BBC World News" "GB"] /\
  Json.filter_channels
    (VList [Examples.record "BBCWorld.uk" "BBC World News" "GB" "eng" "News"
              (VBool false);
            VDict [("id", VStr "x.us"); ("name", VNone);
                   ("country", VStr "US");
                   ("languages", VList [VDict [("code", VStr "eng")]]);
                   ("categories", VList [VDict [("name", VStr "News")]])]])
  = inl (NotContainer "NoneType").
Proof.
  repeat apply conj; [| | | | | | | |vm_compute; reflexivity
                     |vm_compute; reflexivity].
  - intros lines i chs sg i' ch info Hl Htry Hnews.
    apply try_block_inv in Htry as [Heq|(tail & line & _ & _ & Hrec)].
    { apply (f_equal length) in Heq. rewrite length_app in Heq.
      simpl in Heq. lia. }
    cbv zeta in Hrec. destruct Hrec as (_ & _ & _ & _ & _ & Hallow & Heq).
    apply app_inv_head in Heq. injection Heq as ->.
    rewrite (nth_of_lookup _ _ _ Hl) in Hallow.
    apply Hallow, any_in_exists in Hnews as (n & Hn & Hc).
    eexists _, n. by repeat split.
  - intros lines i chs info tail line Hl Hs Hn Hnews Hnone.
    apply any_in_none in Hnone. unfold try_block.
    rewrite (nth_of_lookup _ _ _ Hl), Hs, Hn.
    replace (S i - 1) with i by lia.
    rewrite (nth_of_lookup _ _ _ Hl), Hnews.
    unfold allowed_news. rewrite Hnone.
    by repeat case_match.
  - intros lines i chs info tail line Hl Hs Hn Hnews Hurl Hc Hx.
    unfold try_block.
    rewrite (nth_of_lookup _ _ _ Hl), Hs, Hn, Hurl.
    replace (S i - 1) with i by lia.
    by rewrite (nth_of_lookup _ _ _ Hl), (is_empty_false _ Hc), Hx, Hnews.
  - intros ch entry cats name Hkeep Hcats Hnews Hname.
    apply keep_channel_inv in Hkeep
      as (ch' & codes & cats' & [= <-] & _ & _ & _ & _ & Hcats' & _ & Hany & _).
    rewrite Hcats in Hcats'. injection Hcats' as <-.
    apply mem_In in Hnews. specialize (Hany Hnews).
    rewrite Hname, any_str_in in Hany.
    apply (any_in_exists allowed_news name). congruence.
  - intros ch codes cats Hc Hcodes Heng Hnsfw Hcats Hexcl Hnews.
    unfold Json.keep_channel. cbn [Json.get_method Result.bind].
    rewrite Hc, Hcodes. cbn [negb Result.bind].
    assert (existsb (fun c => Py.eq_str c "eng") codes = true) as ->.
    { apply existsb_exists. exists (VStr "eng"). split; [done|].
      by apply eq_str_true. }
    rewrite Hnsfw, Hcats. cbn [negb Result.bind].
    assert (existsb (fun x => Json.mem x cats) Json.excluded_categories
            = false) as ->.
    { destruct (existsb _ Json.excluded_categories) eqn:E; [|done].
      apply existsb_exists in E as (x & Hx & Hm).
      apply mem_In in Hm. by destruct (Hexcl x Hx). }
    assert (Json.mem "news" cats = false) as ->; [|done].
    destruct (Json.mem "news" cats) eqn:E; [|done].
    apply mem_In in E. by destruct Hnews.
  - intros ch codes cats name Hc Hcodes Heng Hnsfw Hcats Hexcl Hnews Hname
      Hnone.
    rewrite (keep_channel_past_gates ch codes cats) by done.
    apply mem_In in Hnews. rewrite Hnews, Hname, any_str_in.
    apply (any_in_none allowed_news) in Hnone. by rewrite Hnone.
  - intros ch codes cats name n Hc Hcodes Heng Hnsfw Hcats Hexcl Hnews Hname
      Hn Hsub.
    rewrite (keep_channel_past_gates ch codes cats) by done.
    apply mem_In in Hnews. rewrite Hnews, Hname, any_str_in.
    assert (any_in allowed_news name = true) as ->; [|done].
    apply any_in_exists. by exists n.
  - intros ch codes cats v Hc Hcodes Heng Hnsfw Hcats Hexcl Hnews Hname
      Hs Hl Hd.
    rewrite (keep_channel_past_gates ch codes cats) by done.
    apply mem_In in Hnews. rewrite Hnews, Hname.
    by rewrite (any_str_in_scalar v).
Qed.

Lemma news_needs_an_allowlisted_substring_witness :
  (exists name n,
      Py.lookup "name"
        (Examples.channel "CNN International" "US" "News|US" "http://cnni")
      = Some (VStr name) /\
      In n ["MSNBC"; "CNN"; "BBC"; "CBC News"; "CTV News"] /\
      Str.contains n name = true) /\
  try_block [Examples.extinf "US news" "Random News Ch"; "http://rnc"] 0 []
  = (Continue, 1, []) /\
  try_block [Examples.extinf "CA" "Random News Ch"; "http://rnc"] 0 []
  = (Fallthrough, 1,
     [] ++ [Examples.channel "Random News Ch" "CA" "CA" "http://rnc"]) /\
  (exists n,
      In n ["MSNBC"; "CNN"; "BBC"; "CBC News"; "CTV News"] /\
      Str.contains n "BBC World News" = true) /\
  Json.keep_channel
    (Examples.record "Film4.uk" "Film4" "GB" "eng" "Movies" (VBool false))
  = inr (Some (Examples.entry "Film4.uk" "Film4" "GB")) /\
  Json.keep_channel
    (Examples.record "RNC.us" "Random News Ch" "US" "eng" "News"
       (VBool false))
  = inr None /\
  Json.keep_channel
    (Examples.record "BBCWorld.uk" "BBC World News" "GB" "eng" "News"
       (VBool false))
  = inr (Some (Examples.entry "BBCWorld.uk" "BBC World News" "GB")) /\
  Json.keep_channel
    (VDict [("id", VStr "x.us"); ("name", VInt 24); ("country", VStr "US");
            ("languages", VList [VDict [("code", VStr "eng")]]);
            ("categories", VList [VDict [("name", VStr "News")]])])
  = inl (NotContainer "int").
Proof.
  destruct news_needs_an_allowlisted_substring
    as (Hkept & Hdropped & Hbypass & Hjson & Hjson_bypass
        & Hjson_dropped & Hjson_kept & Hjson_raises & _).
  repeat apply conj.
  - apply (Hkept
             [Examples.extinf "News|US" "CNN International"; "http://cnni"]
             0 [] Fallthrough 1 _
             (Examples.extinf "News|US" "CNN International"));
      vm_compute; reflexivity.
  - apply (Hdropped _ 0 [] (Examples.extinf "US news" "Random News Ch")
             "Random News Ch" "http://rnc"); try (vm_compute; reflexivity).
    intros n Hn. simpl in Hn.
    repeat (destruct Hn as [<-|Hn]; [vm_compute; reflexivity|]). destruct Hn.
  - apply (Hbypass _ 0 [] (Examples.extinf "CA" "Random News Ch")
             "Random News Ch" "http://rnc"); try (vm_compute; reflexivity).
    vm_compute. discriminate.
  - apply (Hjson
             [("id", VStr "BBCWorld.uk"); ("name", VStr "BBC World News");
              ("country", VStr "GB");
              ("languages", VList [VDict [("code", VStr "eng")]]);
              ("categories", VList [VDict [("name", VStr "News")]])]
             (Examples.entry "BBCWorld.uk" "BBC World News" "GB") ["news"]);
      try (vm_compute; reflexivity).
    left. reflexivity.
  - apply (Hjson_bypass
             [("id", VStr "Film4.uk"); ("name", VStr "Film4");
              ("country", VStr "GB");
              ("languages", VList [VDict [("code", VStr "eng")]]);
              ("categories", VList [VDict [("name", VStr "Movies")]]);
              ("is_nsfw", VBool false)]
             [VStr "eng"] ["movies"]); try (vm_compute; reflexivity).
    + left. reflexivity.
    + intros x Hx [Heq|[]]. subst x. simpl in Hx.
      repeat (destruct Hx as [Hx|Hx]; [discriminate|]). destruct Hx.
    + intros [Heq|[]]. discriminate.
  - apply (Hjson_dropped
             [("id", VStr "RNC.us"); ("name", VStr "Random News Ch");
              ("country", VStr "US");
              ("languages", VList [VDict [("code", VStr "eng")]]);
              ("categories", VList [VDict [("name", VStr "News")]]);
              ("is_nsfw", VBool false)]
             [VStr "eng"] ["news"] "Random News Ch");
      try (vm_compute; reflexivity).
    + left. reflexivity.
    + intros x Hx [Heq|[]]. subst x. simpl in Hx.
      repeat (destruct Hx as [Hx|Hx]; [discriminate|]). destruct Hx.
    + left. reflexivity.
    + intros n Hn. simpl in Hn.
      repeat (destruct Hn as [<-|Hn]; [vm_compute; reflexivity|]). destruct Hn.
  - apply (Hjson_kept
             [("id", VStr "BBCWorld.uk"); ("name", VStr "BBC World News");
              ("country", VStr "GB");
              ("languages", VList [VDict [("code", VStr "eng")]]);
              ("categories", VList [VDict [("name", VStr "News")]]);
              ("is_nsfw", VBool false)]
             [VStr "eng"] ["news"] "BBC World News" "BBC");
      try (vm_compute; reflexivity).
    + left. reflexivity.
    + intros x Hx [Heq|[]]. subst x. simpl in Hx.
      repeat (destruct Hx as [Hx|Hx]; [discriminate|]). destruct Hx.
    + left. reflexivity.
    + simpl. tauto.
  - apply (Hjson_raises
             [("id", VStr "x.us"); ("name", VInt 24); ("country", VStr "US");
              ("languages", VList [VDict [("code", VStr "eng")]]);
              ("categories", VList [VDict [("name", VStr "News")]])]
             [VStr "eng"] ["news"] (VInt 24));
      try (vm_compute; reflexivity); try discriminate.
    + left. reflexivity.
    + intros x Hx [Heq|[]]. subst x. simpl in Hx.
      repeat (destruct Hx as [Hx|Hx]; [discriminate|]). destruct Hx.
    + left. reflexivity.
Defined.

(** C1 as stated fails: a channel of a news category whose display name
    contains CNN without being equal to an allowlisted name is kept, on
    the playlist path and on the JSON path alike. *)
Lemma news_name_need_not_equal_an_allowlisted_name :
  parse_m3u
    (Examples.playlist
       [Examples.extinf "News|US" "CNN International"; "http://cnni"])
  = [Examples.channel "CNN International" "US" "News|US" "http://cnni"] /\
  In "news" (category_tokens "News|US") /\
  Json.filter_channels
    (VList [Examples.record "CNNi.us" "CNN International" "US" "eng" "News"
              (VBool false)])
  = inr [Examples.entry "CNNi.us" "CNN International" "US"] /\
  Json.category_names
    [("categories", VList [VDict [("name", VStr "News")]])] = inr ["news"] /\
  existsb (String.eqb "CNN International")
    ["MSNBC"; "CNN"; "BBC"; "CBC News"; "CTV News"] = false.
Proof.
  repeat apply conj; try (vm_compute; reflexivity).
  simpl. tauto.
Qed.

End NewsAllowlist.

(** ** Writing the tables *)

Section Writing.

Lemma filter_none_wrong (fieldnames ks : list string) :
  (forall k, In k ks -> In k fieldnames) ->
  List.filter (fun k => negb (Json.mem k fieldnames)) ks = [].
Proof.
  induction ks as [|k ks IH]; intros Hsub; [done|].
  cbn [List.filter].
  assert (Json.mem k fieldnames = true) as ->
      by (apply mem_In, Hsub; by left).
  apply IH. intros k' Hk'. apply Hsub. by right.
Qed.

(** A dictionary whose keys are the field names is written as its values
    in that order; nothing is raised. *)
Lemma dict_to_list_same_keys (fieldnames : list string) (d : dict) :
  Py.keys d = fieldnames ->
  Csv.dict_to_list fieldnames d
  = inr (map (fun k => Py.get d k (VStr "")) fieldnames).
Proof.
  intros Hk. unfold Csv.dict_to_list.
  by rewrite filter_none_wrong by (rewrite Hk; auto).
Qed.

Lemma writerows_same_keys (fieldnames : list string) (rowdicts : list dict)
    (written : list (list value)) :
  Forall (fun d => Py.keys d = fieldnames) rowdicts ->
  Csv.writerows fieldnames rowdicts written
  = (written
       ++ map (fun d => map (fun k => Py.get d k (VStr "")) fieldnames)
            rowdicts,
     None).
Proof.
  intros Hall. revert written.
  induction Hall as [|d ds Hd _ IH]; intros written; simpl.
  - by rewrite app_nil_r.
  - rewrite (dict_to_list_same_keys _ _ Hd), IH. by rewrite <- app_assoc.
Qed.

(** Every entry of [filtered] has the five keys of the projection. *)
Lemma filter_channels_keys (data : value) (filtered : list dict) :
  Json.filter_channels data = inr filtered ->
  Forall (fun d => Py.keys d = ["id"; "name"; "network"; "country"; "logo"])
    filtered.
Proof.
  unfold Json.filter_channels.
  destruct (Json.iter data) as [e|items]; cbn [Result.bind]; [done|].
  intros Hloop. apply filter_loop_inv in Hloop as (new & -> & Hnew).
  apply List.Forall_forall. intros entry Hin.
  destruct (Hnew entry Hin) as (v & _ & Hkeep).
  by apply keep_channel_inv in Hkeep as (ch & ? & ? & _ & _ & _ & _ & _ & _ & _ & _ & ->).
Qed.

(** The result line of a task does not depend on the files already there. *)
Lemma write_csv_result (w : World) (fs fs' : files) (path : string)
    (fieldnames : list string) (rowdicts : list dict) :
  snd (write_csv w fs path fieldnames rowdicts)
  = snd (write_csv w fs' path fieldnames rowdicts).
Proof.
  unfold write_csv. destruct (open_w w path); [done|].
  by destruct (Csv.writerows fieldnames rowdicts []).
Qed.

Lemma try_task_result (w : World) (fs fs' : files) (url filename : string)
    (is_json : bool) :
  snd (try_task w fs url filename is_json)
  = snd (try_task w fs' url filename is_json).
Proof.
  unfold try_task.
  destruct (requests_get w url) as [e|r]; [done|].
  destruct (raise_for_status r); [done|].
  destruct is_json.
  - destruct (let* data := json r in Json.filter_channels data)
      as [e|filtered]; [done|].
    pose proof (write_csv_result w fs fs' (os_path_join OUTPUT_DIR filename)
                  match filtered with
                  | first :: _ => Py.keys first
                  | [] => ["name"]
                  end filtered) as H.
    destruct (write_csv w fs _ _ filtered), (write_csv w fs' _ _ filtered).
    simpl in *. by rewrite H.
  - pose proof (write_csv_result w fs fs' (os_path_join OUTPUT_DIR filename)
                  ["name"; "country"; "group_title"; "url"]
                  (M3u.parse_m3u (text r))) as H.
    destruct (write_csv w fs _ _ _), (write_csv w fs' _ _ _).
    simpl in *. by rewrite H.
Qed.

Lemma run_task_result (w : World) (fs fs' : files)
    (name url filename : string) (is_json : bool) :
  snd (run_task w fs name url filename is_json)
  = snd (run_task w fs' name url filename is_json).
Proof.
  unfold run_task.
  pose proof (try_task_result w fs fs' url filename is_json) as H.
  destruct (try_task w fs _ _ _), (try_task w fs' _ _ _).
  simpl in *. by rewrite H.
Qed.

Lemma contains_refl (s : string) : Str.contains s s = true.
Proof.
  apply contains_startswith. unfold Str.startswith.
  induction s as [|c s IH]; simpl; [done|].
  by destruct (ascii_dec c c).
Qed.

Lemma contains_suffix (sub a : string) : Str.contains sub (a +:+ sub) = true.
Proof. apply contains_app_r, contains_refl. Qed.

End Writing.

(** ** Results of the tasks *)

Section TaskResults.

(** C7.  On the JSON path, when nothing passes the filter the file is
    still written, with the single column name as its header and no data
    row, and the task reports zero channels; when something passes, the
    header is id, name, network, country, logo and there is one data row
    per entry. *)
Theorem json_table_header :
  (forall w fs name url filename r data,
      requests_get w url = inr r ->
      raise_for_status r = None ->
      json r = inr data ->
      Json.filter_channels data = inr [] ->
      open_w w (os_path_join OUTPUT_DIR filename) = None ->
      run_task w fs name url filename true
      = (<[os_path_join OUTPUT_DIR filename := Csv.mk_file ["name"] []]> fs,
         filename +:+ arrow +:+ "0" +:+ " channels")) /\
  (forall w fs name url filename r data first others,
      requests_get w url = inr r ->
      raise_for_status r = None ->
      json r = inr data ->
      Json.filter_channels data = inr (first :: others) ->
      open_w w (os_path_join OUTPUT_DIR filename) = None ->
      run_task w fs name url filename true
      = (<[os_path_join OUTPUT_DIR filename :=
             Csv.mk_file ["id"; "name"; "network"; "country"; "logo"]
               (map (fun d =>
                       map (fun k => Py.get d k (VStr ""))
                         ["id"; "name"; "network"; "country"; "logo"])
                  (first :: others))]> fs,
         filename +:+ arrow +:+ Str.of_nat (S (length others))
         +:+ " channels")).
Proof.
  split.
  - intros w fs name url filename r data Hget Hstatus Hjson Hfilter Hopen.
    unfold run_task, try_task.
    rewrite Hget, Hstatus, Hjson. cbn [Result.bind]. rewrite Hfilter.
    unfold write_csv. rewrite Hopen. reflexivity.
  - intros w fs name url filename r data first others
      Hget Hstatus Hjson Hfilter Hopen.
    pose proof (filter_channels_keys _ _ Hfilter) as Hkeys.
    assert (Py.keys first = ["id"; "name"; "network"; "country"; "logo"])
      as Hfirst by (by inversion Hkeys).
    unfold run_task, try_task.
    rewrite Hget, Hstatus, Hjson. cbn [Result.bind]. rewrite Hfilter.
    unfold write_csv. rewrite Hopen, Hfirst.
    rewrite (writerows_same_keys _ _ [] Hkeys). reflexivity.
Qed.

Lemma json_table_header_witness :
  run_task (Examples.world_of (mk_response None "" (inr (VList []))))
    ∅ "iptv-org JSON" "https://iptv-org.github.io/api/channels.json"
    "1_iptv-org_full.csv" true
  = (<[os_path_join OUTPUT_DIR "1_iptv-org_full.csv" :=
         Csv.mk_file ["name"] []]> ∅,
     "1_iptv-org_full.csv" +:+ arrow +:+ "0" +:+ " channels") /\
  run_task
    (Examples.world_of
       (mk_response None ""
          (inr (VList [Examples.record "Film4.uk" "Film4" "GB" "eng" "Movies"
                         (VBool false)]))))
    ∅ "iptv-org JSON" "https://iptv-org.github.io/api/channels.json"
    "1_iptv-org_full.csv" true
  = (<[os_path_join OUTPUT_DIR "1_iptv-org_full.csv" :=
         Csv.mk_file ["id"; "name"; "network"; "country"; "logo"]
           (map (fun d =>
                   map (fun k => Py.get d k (VStr ""))
                     ["id"; "name"; "network"; "country"; "logo"])
              [Examples.entry "Film4.uk" "Film4" "GB"])]> ∅,
     "1_iptv-org_full.csv" +:+ arrow +:+ Str.of_nat 1 +:+ " channels").
Proof.
  destruct json_table_header as (Hempty & Hsome).
  split.
  - apply (Hempty _ ∅ _ _ _ (mk_response None "" (inr (VList [])))
             (VList [])); reflexivity.
  - apply (Hsome _ ∅ _ _ _
             (mk_response None ""
                (inr (VList [Examples.record "Film4.uk" "Film4" "GB" "eng"
                               "Movies" (VBool false)])))
             (VList [Examples.record "Film4.uk" "Film4" "GB" "eng" "Movies"
                       (VBool false)])); reflexivity.
Defined.

(** Whether [log] raises does not depend on what was printed and logged
    before. *)
Lemma log_raised (h : Host) (out out' : Output) (msg level : string) :
  snd (log h out msg level) = snd (log h out' msg level).
Proof.
  unfold log. destruct (print_raises h _); [done|].
  by destruct (append_raises h _).
Qed.

(** C6, as the code has it.  The source function makes its call to [log]
    before it enters the [try]: an exception of that call leaves the
    function, and nothing is fetched.  Once that call has returned, the
    function returns a result line, whatever happens: whatever exception
    leaves the [try] block becomes the line "<filename> FAILED: <text>",
    which contains the file name and the text of the exception; so it is
    for an exception of the fetch (a timeout, say), an error status, an
    exception of the JSON decoder, of the filter, or of opening the
    output file.  The line of a task depends on the answer to its own
    URL and on its own output file only: it is the same whatever the
    files already written and whatever the world answers to the other
    tasks, and the lines of a run of several tasks are those of the tasks
    run alone; and what the future of a call holds, its line or the
    exception of [log], is the same whatever was printed, logged and
    written before.  When the Free-TV fetch times out and the other three
    sources answer, the run of the four configured tasks yields one
    failure line and three success lines, and the three other files are
    written. *)
Theorem run_task_reports_failures :
  (forall h w out fs name url filename is_json out' e,
      log h out ("Starting" +:+ arrow +:+ name) "INFO" = (out', Some e) ->
      run_task_logged h w out fs name url filename is_json
      = (out', inl e)) /\
  (forall h w out fs name url filename is_json out',
      log h out ("Starting" +:+ arrow +:+ name) "INFO" = (out', None) ->
      run_task_logged h w out fs name url filename is_json
      = (out', inr (run_task w fs name url filename is_json))) /\
  (forall h w out fs name url filename is_json out' fs' e,
      log h out ("Starting" +:+ arrow +:+ name) "INFO" = (out', None) ->
      try_task w fs url filename is_json = (fs', inl e) ->
      run_task_logged h w out fs name url filename is_json
      = (out', inr (fs', filename +:+ " FAILED: " +:+ str_exn e))) /\
  (forall h w out out' fs fs' name url filename is_json,
      fut_result (run_task_logged h w out fs name url filename is_json)
      = fut_result (run_task_logged h w out' fs' name url filename is_json)) /\
  (forall w fs name url filename is_json fs' e,
      try_task w fs url filename is_json = (fs', inl e) ->
      run_task w fs name url filename is_json
      = (fs', filename +:+ " FAILED: " +:+ str_exn e) /\
      Str.contains filename
        (snd (run_task w fs name url filename is_json)) = true /\
      Str.contains (str_exn e)
        (snd (run_task w fs name url filename is_json)) = true) /\
  (forall w fs name url filename is_json e,
      requests_get w url = inl e ->
      run_task w fs name url filename is_json
      = (fs, filename +:+ " FAILED: " +:+ str_exn e)) /\
  (forall w fs name url filename is_json r e,
      requests_get w url = inr r ->
      raise_for_status r = Some e ->
      run_task w fs name url filename is_json
      = (fs, filename +:+ " FAILED: " +:+ str_exn e)) /\
  (forall w fs name url filename r e,
      requests_get w url = inr r ->
      raise_for_status r = None ->
      json r = inl e ->
      run_task w fs name url filename true
      = (fs, filename +:+ " FAILED: " +:+ str_exn e)) /\
  (forall w fs name url filename r data e,
      requests_get w url = inr r ->
      raise_for_status r = None ->
      json r = inr data ->
      Json.filter_channels data = inl e ->
      run_task w fs name url filename true
      = (fs, filename +:+ " FAILED: " +:+ str_exn e)) /\
  (forall w fs name url filename r e,
      requests_get w url = inr r ->
      raise_for_status r = None ->
      open_w w (os_path_join OUTPUT_DIR filename) = Some e ->
      run_task w fs name url filename false
      = (fs, filename +:+ " FAILED: " +:+ str_exn e)) /\
  (forall w w' fs fs' name url filename is_json,
      requests_get w url = requests_get w' url ->
      open_w w (os_path_join OUTPUT_DIR filename)
      = open_w w' (os_path_join OUTPUT_DIR filename) ->
      snd (run_task w fs name url filename is_json)
      = snd (run_task w' fs' name url filename is_json)) /\
  (forall w fs ts,
      snd (run_all w fs ts) = map (fun t => snd (run w ∅ t)) ts) /\
  snd (run_all Examples.free_tv_down ∅ tasks)
  = ["1_iptv-org_full.csv" +:+ arrow +:+ "0 channels";
     "2_english_m3u.csv" +:+ arrow +:+ "1 channels";
     "3_free_tv.csv FAILED: Read timed out.";
     "4_canada_kitchener.csv" +:+ arrow +:+ "1 channels"] /\
  fst (run_all Examples.free_tv_down ∅ tasks)
    !! os_path_join OUTPUT_DIR "1_iptv-org_full.csv"
  = Some (Csv.mk_file ["name"] []) /\
  fst (run_all Examples.free_tv_down ∅ tasks)
    !! os_path_join OUTPUT_DIR "2_english_m3u.csv"
  = Some (Csv.mk_file ["name"; "country"; "group_title"; "url"]
            [[VStr "CBC"; VStr "CA"; VStr "Canada"; VStr "http://cbc"]]) /\
  fst (run_all Examples.free_tv_down ∅ tasks)
    !! os_path_join OUTPUT_DIR "3_free_tv.csv"
  = None /\
  fst (run_all Examples.free_tv_down ∅ tasks)
    !! os_path_join OUTPUT_DIR "4_canada_kitchener.csv"
  = Some (Csv.mk_file ["name"; "country"; "group_title"; "url"]
            [[VStr "CBC"; VStr "CA"; VStr "Canada"; VStr "http://cbc"]]).
Proof.
  repeat apply conj.
  - intros h w out fs name url filename is_json out' e Hlog.
    unfold run_task_logged. by rewrite Hlog.
  - intros h w out fs name url filename is_json out' Hlog.
    unfold run_task_logged. by rewrite Hlog.
  - intros h w out fs name url filename is_json out' fs' e Hlog Htry.
    unfold run_task_logged, run_task. by rewrite Hlog, Htry.
  - intros h w out out' fs fs' name url filename is_json.
    unfold run_task_logged, fut_result.
    pose proof (log_raised h out out' ("Starting" +:+ arrow +:+ name) "INFO")
      as Hlog.
    pose proof (run_task_result w fs fs' name url filename is_json) as Hline.
    destruct (log h out _ _) as [o1 [e1|]], (log h out' _ _) as [o2 [e2|]];
      cbn [snd] in *; simplify_eq; [done|].
    destruct (run_task w fs _ _ _ _), (run_task w fs' _ _ _ _).
    cbn [snd] in *. by subst.
  - intros w fs name url filename is_json fs' e Htry.
    unfold run_task. rewrite Htry. cbn [snd].
    repeat split.
    + apply contains_prefix.
    + rewrite <- (contains_suffix (str_exn e) " FAILED: ") at 1.
      apply contains_app_r, contains_suffix.
  - intros w fs name url filename is_json e Hget.
    unfold run_task, try_task. by rewrite Hget.
  - intros w fs name url filename is_json r e Hget Hstatus.
    unfold run_task, try_task. by rewrite Hget, Hstatus.
  - intros w fs name url filename r e Hget Hstatus Hjson.
    unfold run_task, try_task. by rewrite Hget, Hstatus, Hjson.
  - intros w fs name url filename r data e Hget Hstatus Hjson Hfilter.
    unfold run_task, try_task. rewrite Hget, Hstatus, Hjson.
    cbn [Result.bind]. by rewrite Hfilter.
  - intros w fs name url filename r e Hget Hstatus Hopen.
    unfold run_task, try_task, write_csv. by rewrite Hget, Hstatus, Hopen.
  - intros w w' fs fs' name url filename is_json Hget Hopen.
    rewrite (run_task_result w fs fs').
    unfold run_task, try_task, write_csv. by rewrite Hget, Hopen.
  - intros w fs ts. revert fs.
    induction ts as [|[[[name url] filename] is_json] ts IH]; intros fs;
      [done|].
    cbn [run_all map]. unfold run at 1 3.
    pose proof (run_task_result w fs ∅ name url filename is_json) as Hline.
    destruct (run_task w fs name url filename is_json) as [fs1 line].
    specialize (IH fs1). destruct (run_all w fs1 ts) as [fs2 lines].
    simpl in *. by rewrite Hline, IH.
  - vm_compute. reflexivity.
  - vm_compute. reflexivity.
  - vm_compute. reflexivity.
  - vm_compute. reflexivity.
  - vm_compute. reflexivity.
Qed.

Lemma run_task_reports_failures_witness :
  run_task_logged Examples.locked_log Examples.timeout_world
    Examples.no_output ∅ "Free-TV" "https://free-tv" "3_free_tv.csv" false
  = (mk_output
       ["[2025-01-01 12:00:00] [INFO] Starting" +:+ arrow +:+ "Free-TV"] [],
     inl (Raised "Permission denied")) /\
  run_task_logged Examples.utf8_console Examples.timeout_world
    Examples.no_output ∅ "Free-TV" "https://free-tv" "3_free_tv.csv" false
  = (mk_output
       ["[2025-01-01 12:00:00] [INFO] Starting" +:+ arrow +:+ "Free-TV"]
       ["[2025-01-01 12:00:00] [INFO] Starting" +:+ arrow +:+ "Free-TV"
        +:+ String Char.lf EmptyString],
     inr (run_task Examples.timeout_world ∅ "Free-TV" "https://free-tv"
            "3_free_tv.csv" false)) /\
  run_task_logged Examples.utf8_console Examples.timeout_world
    Examples.no_output ∅ "Free-TV" "https://free-tv" "3_free_tv.csv" false
  = (mk_output
       ["[2025-01-01 12:00:00] [INFO] Starting" +:+ arrow +:+ "Free-TV"]
       ["[2025-01-01 12:00:00] [INFO] Starting" +:+ arrow +:+ "Free-TV"
        +:+ String Char.lf EmptyString],
     inr (∅, "3_free_tv.csv" +:+ " FAILED: " +:+ "Read timed out.")) /\
  (run_task Examples.timeout_world ∅ "Free-TV" "https://free-tv"
     "3_free_tv.csv" false
   = (∅, "3_free_tv.csv" +:+ " FAILED: " +:+ "Read timed out.") /\
   Str.contains "3_free_tv.csv"
     (snd (run_task Examples.timeout_world ∅ "Free-TV" "https://free-tv"
             "3_free_tv.csv" false)) = true /\
   Str.contains "Read timed out."
     (snd (run_task Examples.timeout_world ∅ "Free-TV" "https://free-tv"
             "3_free_tv.csv" false)) = true) /\
  run_task Examples.timeout_world ∅ "Free-TV" "https://free-tv"
    "3_free_tv.csv" false
  = (∅, "3_free_tv.csv" +:+ " FAILED: " +:+ "Read timed out.") /\
  run_task
    (Examples.world_of
       (mk_response (Some (Raised "404 Client Error")) "" (inr VNone)))
    ∅ "Free-TV" "https://free-tv" "3_free_tv.csv" false
  = (∅, "3_free_tv.csv" +:+ " FAILED: " +:+ "404 Client Error") /\
  run_task
    (Examples.world_of (mk_response None "" (inl (Raised "Expecting value"))))
    ∅ "iptv-org JSON" "https://channels" "1_iptv-org_full.csv" true
  = (∅, "1_iptv-org_full.csv" +:+ " FAILED: " +:+ "Expecting value") /\
  run_task
    (Examples.world_of (mk_response None "" (inr (VList [VInt 3]))))
    ∅ "iptv-org JSON" "https://channels" "1_iptv-org_full.csv" true
  = (∅,
     "1_iptv-org_full.csv" +:+ " FAILED: "
     +:+ str_exn (AttributeError "int" "get")) /\
  run_task
    (Examples.read_only_world (mk_response None "" (inr VNone)))
    ∅ "Free-TV" "https://free-tv" "3_free_tv.csv" false
  = (∅, "3_free_tv.csv" +:+ " FAILED: " +:+ "Permission denied") /\
  snd (run_task
         (Examples.world_of (mk_response None "" (inr VNone)))
         ∅ "Free-TV" "https://free-tv" "3_free_tv.csv" false)
  = snd (run_task
           (Examples.world_with "https://free-tv"
              (mk_response None "" (inr VNone)))
           ∅ "Free-TV" "https://free-tv" "3_free_tv.csv" false).
Proof.
  destruct run_task_reports_failures
    as (Hraised & Hreturned & Hcaught & _
        & Hline & Hfetch & Hstatus & Hjson & Hfilter & Hopen & Hown & _).
  repeat apply conj.
  - apply Hraised. vm_compute. reflexivity.
  - apply Hreturned. vm_compute. reflexivity.
  - apply (Hcaught _ _ _ _ _ _ _ _ _ ∅ (Raised "Read timed out."));
      vm_compute; reflexivity.
  - apply (Hline _ _ _ _ _ _ ∅ (Raised "Read timed out.")). reflexivity.
  - apply (Hline _ _ _ _ _ _ ∅ (Raised "Read timed out.")). reflexivity.
  - apply (Hline _ _ _ _ _ _ ∅ (Raised "Read timed out.")). reflexivity.
  - apply (Hfetch _ _ _ _ _ _ (Raised "Read timed out.")). reflexivity.
  - apply (Hstatus _ _ _ _ _ _
             (mk_response (Some (Raised "404 Client Error")) "" (inr VNone))
             (Raised "404 Client Error")); reflexivity.
  - apply (Hjson _ _ _ _ _
             (mk_response None "" (inl (Raised "Expecting value")))
             (Raised "Expecting value")); reflexivity.
  - apply (Hfilter _ _ _ _ _
             (mk_response None "" (inr (VList [VInt 3]))) (VList [VInt 3]));
      reflexivity.
  - apply (Hopen _ _ _ _ _ (mk_response None "" (inr VNone))
             (Raised "Permission denied")); reflexivity.
  - apply Hown; reflexivity.
Defined.

(** C6 as stated fails: on a console that cannot encode the arrow of the
    starting message, [print] raises inside [log], before the [try]; the
    exception leaves the function, for every one of the four configured
    tasks, and no result line is returned.  So it is when the log file
    cannot be opened. *)
Lemma run_task_propagates_an_exception_of_log :
  map (fun t : task =>
         let '(name, url, filename, is_json) := t in
         run_task_logged Examples.cp1252_console Examples.free_tv_down
           Examples.no_output ∅ name url filename is_json)
      tasks
  = repeat
      (Examples.no_output,
       inl (Raised "'charmap' codec can't encode character"))
      4 /\
  snd (run_task_logged Examples.locked_log Examples.timeout_world
         Examples.no_output ∅ "Free-TV" "https://free-tv" "3_free_tv.csv"
         false)
  = inl (Raised "Permission denied").
Proof. split; vm_compute; reflexivity. Qed.

End TaskResults.

(** * Further properties *)

Section WordTests.

Import M3u.

Lemma startswith_cons_eq (a b : ascii) (p s : string) :
  Str.startswith (String a p) (String b s)
  = if ascii_dec a b then Str.startswith p s else false.
Proof. reflexivity. Qed.

Lemma startswith_other_head (q : ascii -> bool) (a c : ascii) (p s : string) :
  q a = false -> q c = true -> Str.startswith (String a p) (String c s) = false.
Proof.
  intros Ha Hc. rewrite startswith_cons_eq.
  destruct (ascii_dec a c) as [->|]; [congruence|done].
Qed.

Lemma startswith_nil_r' (w : string) :
  Str.is_empty w = false -> Str.startswith w "" = false.
Proof. by destruct w. Qed.

Lemma contains_nil_r (w : string) :
  Str.is_empty w = false -> Str.contains w "" = false.
Proof. by destruct w. Qed.

(** A word without white space starts [s] exactly when it starts [s]
    with the trailing white space removed. *)
Lemma startswith_rstrip_eq (w s : string) :
  Word.all (fun c => negb (Char.isspace c)) w = true ->
  Str.startswith w (Str.rstrip s) = Str.startswith w s.
Proof.
  revert w. induction s as [|c s IH]; intros [|a w] Hw;
    [done|done|by rewrite !startswith_nil|].
  cbn [Word.all] in Hw. apply andb_true_iff in Hw as [Ha Hw].
  apply negb_true_iff in Ha.
  cbn [Str.rstrip].
  destruct (Str.is_empty (Str.rstrip s) && Char.isspace c) eqn:E.
  - apply andb_true_iff in E as [_ Hc].
    by rewrite (startswith_other_head Char.isspace a c).
  - rewrite !startswith_cons_eq. destruct (ascii_dec a c); [|done].
    by apply IH.
Qed.

Lemma contains_lstrip (w s : string) :
  Str.is_empty w = false ->
  Word.all (fun c => negb (Char.isspace c)) w = true ->
  Str.contains w (Str.lstrip s) = Str.contains w s.
Proof.
  intros Hne Hw. induction s as [|c s IH]; [done|].
  cbn [Str.lstrip]. destruct (Char.isspace c) eqn:Hc; [|done].
  rewrite IH. cbn [Str.contains].
  destruct w as [|a w]; [done|].
  cbn [Word.all] in Hw. apply andb_true_iff in Hw as [Ha _].
  apply negb_true_iff in Ha.
  by rewrite (startswith_other_head Char.isspace a c).
Qed.

Lemma contains_rstrip (w s : string) :
  Str.is_empty w = false ->
  Word.all (fun c => negb (Char.isspace c)) w = true ->
  Str.contains w (Str.rstrip s) = Str.contains w s.
Proof.
  intros Hne Hw. induction s as [|c s IH]; [done|].
  cbn [Str.rstrip].
  destruct (Str.is_empty (Str.rstrip s) && Char.isspace c) eqn:E.
  - apply andb_true_iff in E as [He Hc].
    destruct (Str.rstrip s); [|done].
    cbn [Str.contains]. rewrite <- IH.
    destruct w as [|a w]; [done|].
    cbn [Word.all] in Hw. apply andb_true_iff in Hw as [Ha _].
    apply negb_true_iff in Ha.
    by rewrite (startswith_other_head Char.isspace a c).
  - cbn [Str.contains]. rewrite IH. f_equal.
    destruct w as [|a w]; [done|].
    cbn [Word.all] in Hw. apply andb_true_iff in Hw as [_ Hw].
    rewrite !startswith_cons_eq. destruct (ascii_dec a c); [|done].
    by apply startswith_rstrip_eq.
Qed.

Lemma contains_strip (w s : string) :
  Str.is_empty w = false ->
  Word.all (fun c => negb (Char.isspace c)) w = true ->
  Str.contains w (Str.strip s) = Str.contains w s.
Proof.
  intros. unfold Str.strip. by rewrite contains_rstrip, contains_lstrip.
Qed.

(** A word without a blank starts [t], a blank, [r] exactly when it
    starts [t]. *)
Lemma startswith_before_blank (w t r : string) :
  Word.all (fun c => negb (Char.isspace c)) w = true ->
  Str.startswith w (t +:+ String " " r) = Str.startswith w t.
Proof.
  revert w. induction t as [|c t IH]; intros [|a w] Hw;
    [done| |by rewrite !startswith_nil|].
  - cbn [Word.all] in Hw. apply andb_true_iff in Hw as [Ha _].
    apply negb_true_iff in Ha.
    change ("" +:+ String " " r) with (String " " r).
    by rewrite (startswith_other_head Char.isspace a " ").
  - cbn [Word.all] in Hw. apply andb_true_iff in Hw as [_ Hw].
    change (String c t +:+ String " " r) with (String c (t +:+ String " " r)).
    rewrite !startswith_cons_eq. destruct (ascii_dec a c); [|done].
    by apply IH.
Qed.

Lemma contains_around_blank (w t r : string) :
  Str.is_empty w = false ->
  Word.all (fun c => negb (Char.isspace c)) w = true ->
  Str.contains w (t +:+ String " " r) = Str.contains w t || Str.contains w r.
Proof.
  intros Hne Hw. induction t as [|c t IH].
  - change ("" +:+ String " " r) with (String " " r).
    rewrite (contains_nil_r w Hne). cbn [Str.contains orb].
    destruct w as [|a w]; [done|].
    cbn [Word.all] in Hw. apply andb_true_iff in Hw as [Ha _].
    apply negb_true_iff in Ha.
    by rewrite (startswith_other_head Char.isspace a " ").
  - change (String c t +:+ String " " r) with (String c (t +:+ String " " r)).
    cbn [Str.contains]. rewrite IH, orb_assoc. do 2 f_equal.
    apply (startswith_before_blank w (String c t) r Hw).
Qed.

(** A word without white space occurs in the tokens joined by blanks
    exactly when it occurs in one of the tokens. *)
Lemma contains_join (w : string) (ts : list string) :
  Str.is_empty w = false ->
  Word.all (fun c => negb (Char.isspace c)) w = true ->
  Str.contains w (Str.join " " ts) = existsb (Str.contains w) ts.
Proof.
  intros Hne Hw. induction ts as [|t ts IH]; [by apply contains_nil_r|].
  cbn [existsb]. rewrite <- IH. unfold Str.join. cbn [String.concat].
  destruct ts as [|t' ts].
  - cbn [String.concat]. by rewrite (contains_nil_r w Hne), orb_false_r.
  - change (t +:+ " " +:+ String.concat " " (t' :: ts))
      with (t +:+ String " " (String.concat " " (t' :: ts))).
    by apply contains_around_blank.
Qed.

(** A word without delimiter starts [s] exactly when it starts the first
    piece of [s]. *)
Lemma startswith_first_piece (w s : string) :
  Word.all (fun c => negb (Char.isdelim c)) w = true ->
  Str.startswith w s = Str.startswith w (hd "" (Re.split_delims s)).
Proof.
  revert w. induction s as [|c s IH]; intros [|a w] Hw;
    [done|done|by rewrite !startswith_nil|].
  cbn [Word.all] in Hw. apply andb_true_iff in Hw as [Ha Hw].
  apply negb_true_iff in Ha.
  cbn [Re.split_delims]. destruct (Char.isdelim c) eqn:Hc.
  - by rewrite (startswith_other_head Char.isdelim a c).
  - specialize (IH w Hw).
    destruct (Re.split_delims s) as [|h t]; cbn [hd] in *;
      rewrite !startswith_cons_eq; destruct (ascii_dec a c); try done.
Qed.

(** A word without delimiter occurs in [s] exactly when it occurs in one
    of the pieces [s] is split in. *)
Lemma contains_split (w s : string) :
  Str.is_empty w = false ->
  Word.all (fun c => negb (Char.isdelim c)) w = true ->
  Str.contains w s = existsb (Str.contains w) (Re.split_delims s).
Proof.
  intros Hne Hw. induction s as [|c s IH].
  - cbn [Re.split_delims existsb]. by rewrite (contains_nil_r w Hne).
  - pose proof (startswith_first_piece w (String c s) Hw) as Hfirst.
    cbn [Re.split_delims] in *. cbn [Str.contains]. rewrite IH.
    destruct (Char.isdelim c) eqn:Hc.
    + cbn [existsb hd] in *. rewrite Hfirst.
      by rewrite (contains_nil_r w Hne), startswith_nil_r'.
    + destruct (Re.split_delims s) as [|h t]; cbn [existsb hd Str.contains] in *;
        rewrite Hfirst;
        by rewrite ?(startswith_nil_r' w Hne), ?orb_false_r, ?orb_assoc.
Qed.

(** The category tests of [parse_m3u] do not depend on how the group
    title is cut in tokens: a plain word occurs in the joined tokens
    exactly when it occurs in the lower-cased group title. *)
Lemma contains_joined_tokens (w g : string) :
  Word.plain w = true ->
  Str.contains w (Str.join " " (category_tokens g))
  = Str.contains w (Str.lower g).
Proof.
  unfold Word.plain. intros Hw.
  apply andb_true_iff in Hw as [Hne Hw]. apply negb_true_iff in Hne.
  assert (Word.all (fun c => negb (Char.isspace c)) w = true) as Hs.
  { clear Hne. induction w as [|a w IH]; [done|]. cbn [Word.all] in *.
    apply andb_true_iff in Hw as [Ha Hw].
    apply andb_true_iff in Ha as [Ha _]. by rewrite Ha, IH. }
  assert (Word.all (fun c => negb (Char.isdelim c)) w = true) as Hd.
  { clear Hne Hs. induction w as [|a w IH]; [done|]. cbn [Word.all] in *.
    apply andb_true_iff in Hw as [Ha Hw].
    apply andb_true_iff in Ha as [_ Ha]. by rewrite Ha, IH. }
  rewrite (contains_join w _ Hne Hs), (contains_split w _ Hne Hd).
  rewrite split_delims_lower. unfold category_tokens.
  induction (Re.split_delims g) as [|t ts IH]; [done|].
  cbn [map existsb]. rewrite IH. f_equal.
  by rewrite <- strip_lower, (contains_strip w _ Hne Hs).
Qed.

End WordTests.

Section GroupTitle.

Import M3u.

Lemma drop_app_length (p s : string) : Str.drop (String.length p) (p +:+ s) = s.
Proof.
  induction p as [|c p IH]; [by destruct s|].
  change (String c p +:+ s) with (String c (p +:+ s)). exact IH.
Qed.

(** The run up to the closing quote, for a text without a quote. *)
Lemma quoted_app (g b : string) :
  Word.all (fun c => negb (Ascii.eqb c Char.dquote)) g = true ->
  Re.quoted (g +:+ String Char.dquote b) = Some g.
Proof.
  induction g as [|c g IH]; intros Hg.
  - change ("" +:+ String Char.dquote b) with (String Char.dquote b).
    cbn [Re.quoted]. by rewrite Ascii.eqb_refl.
  - cbn [Word.all] in Hg. apply andb_true_iff in Hg as [Hc Hg].
    apply negb_true_iff in Hc.
    change (String c g +:+ String Char.dquote b)
      with (String c (g +:+ String Char.dquote b)).
    cbn [Re.quoted]. by rewrite Hc, (IH Hg).
Qed.

Lemma quoted_no_quote (s g : string) :
  Re.quoted s = Some g ->
  Word.all (fun c => negb (Ascii.eqb c Char.dquote)) g = true.
Proof.
  revert g. induction s as [|c s IH]; intros g; [done|].
  cbn [Re.quoted]. destruct (Ascii.eqb c Char.dquote) eqn:Hc.
  - by intros [= <-].
  - destruct (Re.quoted s) as [g'|]; [|done].
    intros [= <-]. cbn [Word.all]. by rewrite Hc, (IH g').
Qed.

(** A pattern whose first character does not come back in it cannot
    start inside [x] and run over into a copy of itself after [x]. *)
Lemma startswith_tail_before (h : ascii) (q x r : string) :
  Word.all (fun c => negb (Ascii.eqb c h)) q = true ->
  Str.startswith q (x +:+ String h r) = true -> Str.startswith q x = true.
Proof.
  revert x. induction q as [|c q IH]; intros x Hq;
    [intros _; apply startswith_nil|].
  cbn [Word.all] in Hq. apply andb_true_iff in Hq as [Hc Hq].
  apply negb_true_iff, Ascii.eqb_neq in Hc.
  destruct x as [|d x].
  - change ("" +:+ String h r) with (String h r).
    intros H. by apply startswith_cons in H as [-> _].
  - change (String d x +:+ String h r) with (String d (x +:+ String h r)).
    rewrite !startswith_cons_eq. destruct (ascii_dec c d); [|done].
    by apply IH.
Qed.

Lemma key_not_astride (x rest : string) :
  x <> "" ->
  Str.startswith Re.group_title_key (x +:+ Re.group_title_key +:+ rest) = true ->
  Str.startswith Re.group_title_key x = true.
Proof.
  destruct x as [|d x]; [done|]. intros _.
  change (String d x +:+ Re.group_title_key +:+ rest)
    with (String d (x +:+ String "g"
                      (("roup-title=" +:+ String Char.dquote "") +:+ rest))).
  change Re.group_title_key
    with (String "g" ("roup-title=" +:+ String Char.dquote "")).
  rewrite !startswith_cons_eq. destruct (ascii_dec "g" d); [|done].
  by apply startswith_tail_before.
Qed.

(** [re.search] finds the attribute where it first stands and returns
    what is between its quotes. *)
Lemma search_group_title_found (a g b : string) :
  Str.contains Re.group_title_key a = false ->
  Word.all (fun c => negb (Ascii.eqb c Char.dquote)) g = true ->
  Re.search_group_title
    (a +:+ Re.group_title_key +:+ g +:+ String Char.dquote b) = Some g.
Proof.
  intros Ha Hg. induction a as [|c a IH].
  - change ("" +:+ Re.group_title_key +:+ g +:+ String Char.dquote b)
      with (Re.group_title_key +:+ g +:+ String Char.dquote b).
    assert (Re.match_group_title
              (Re.group_title_key +:+ g +:+ String Char.dquote b) = Some g)
      as Hm.
    { unfold Re.match_group_title.
      by rewrite startswith_app, drop_app_length, quoted_app. }
    destruct (Re.group_title_key +:+ g +:+ String Char.dquote b);
      cbn [Re.search_group_title]; by rewrite Hm.
  - cbn [Str.contains] in Ha. apply orb_false_elim in Ha as [Hs Ha].
    assert (Re.match_group_title
              (String c a +:+ Re.group_title_key +:+ g +:+ String Char.dquote b)
            = None) as Hm.
    { unfold Re.match_group_title.
      destruct (Str.startswith Re.group_title_key
                  (String c a +:+ Re.group_title_key +:+ g
                   +:+ String Char.dquote b)) eqn:E; [|done].
      apply key_not_astride in E; [congruence|done]. }
    change (String c a +:+ Re.group_title_key +:+ g +:+ String Char.dquote b)
      with (String c (a +:+ Re.group_title_key +:+ g +:+ String Char.dquote b))
      in *.
    cbn [Re.search_group_title]. rewrite Hm. by apply IH.
Qed.

Lemma search_group_title_absent (s : string) :
  Str.contains Re.group_title_key s = false ->
  Re.search_group_title s = None.
Proof.
  induction s as [|c s IH]; intros H.
  - reflexivity.
  - cbn [Str.contains] in H. apply orb_false_elim in H as [Hs H].
    cbn [Re.search_group_title]. unfold Re.match_group_title at 1.
    rewrite Hs. by apply IH.
Qed.

End GroupTitle.

Section ParsedChannels.

Import M3u.

(** Where each channel of a parse comes from: an info line with a comma
    and the line after it, through every gate of the [try] block. *)
Lemma parse_lines_inv (lines : list string) (ch : dict) :
  In ch (parse_lines lines) ->
  exists i info tail line,
    lines !! i = Some info /\
    lines !! S i = Some line /\
    Str.startswith "#EXTINF:" info = true /\
    Str.split1 "," info !! 1 = Some tail /\
    Str.startswith "http" (Str.strip line) = true /\
    Str.is_empty (derive_country (group_title_of info)) = false /\
    any_in excluded_words
      (Str.join " " (category_tokens (group_title_of info))) = false /\
    (Str.contains "news"
       (Str.join " " (category_tokens (group_title_of info))) = true ->
     any_in allowed_news (Str.strip (hd "" (Str.split1 " tvg-" tail))) = true) /\
    ch = [("name", VStr (Str.strip (hd "" (Str.split1 " tvg-" tail))));
          ("country", VStr (derive_country (group_title_of info)));
          ("group_title", VStr (group_title_of info));
          ("url", VStr (Str.strip line))].
Proof.
  unfold parse_lines. revert ch. apply List.Forall_forall.
  apply while_Forall; [|constructor].
  intros i chs i' chs' Hit Hchs.
  assert (Str.startswith "#EXTINF:" (nth i lines "") = true
          \/ chs' = chs) as Hcase.
  { unfold iteration in Hit.
    destruct (Str.startswith "#EXTINF:" (nth i lines "")); [by left|].
    injection Hit as _ <-. by right. }
  destruct Hcase as [Hm| ->]; [|done].
  apply iteration_inv in Hit as [->|(sg & k & Htry)]; [done|].
  apply try_block_inv in Htry as [->|(tail & line & Hs & Hn & Hrec)]; [done|].
  cbv zeta in Hrec. destruct Hrec as (_ & _ & Hurl & Hc & Hx & Hnews & ->).
  apply Forall_app; split; [done|]. constructor; [|constructor].
  assert (lines !! i = Some (nth i lines "")) as Hl.
  { destruct (lines !! i) as [l|] eqn:E.
    - by rewrite (nth_of_lookup _ _ _ E).
    - apply lookup_ge_None in E. apply lookup_lt_Some in Hn. lia. }
  exists i, (nth i lines ""), tail, line. by repeat split.
Qed.

End ParsedChannels.

Section Trimming.

Lemma rstrip_idemp (s : string) : Str.rstrip (Str.rstrip s) = Str.rstrip s.
Proof.
  induction s as [|c s IH]; [done|]. cbn [Str.rstrip].
  destruct (Str.is_empty (Str.rstrip s) && Char.isspace c) eqn:E; [done|].
  cbn [Str.rstrip]. by rewrite IH, E.
Qed.

Lemma lstrip_head (s : string) :
  Str.lstrip s = "" \/
  exists c t, Str.lstrip s = String c t /\ Char.isspace c = false.
Proof.
  induction s as [|c s IH]; [by left|]. cbn [Str.lstrip].
  destruct (Char.isspace c) eqn:Hc; [exact IH|]. right. eauto.
Qed.

(** [strip] leaves a stripped string as it is. *)
Lemma strip_idemp (s : string) : Str.strip (Str.strip s) = Str.strip s.
Proof.
  unfold Str.strip.
  assert (Str.lstrip (Str.rstrip (Str.lstrip s)) = Str.rstrip (Str.lstrip s))
    as ->; [|apply rstrip_idemp].
  destruct (lstrip_head s) as [->|(c & t & -> & Hc)]; [done|].
  cbn [Str.rstrip]. rewrite Hc, andb_false_r. cbn [Str.lstrip]. by rewrite Hc.
Qed.

Lemma startswith_app_l (p a t : string) :
  Str.startswith p a = true -> Str.startswith p (a +:+ t) = true.
Proof.
  revert a. induction p as [|c p IH]; intros a; [intros _; apply startswith_nil|].
  destruct a as [|d a]; [done|].
  change (String d a +:+ t) with (String d (a +:+ t)).
  rewrite !startswith_cons_eq. destruct (ascii_dec c d); [|done]. apply IH.
Qed.

Lemma contains_lstrip_inv (sub s : string) :
  Str.contains sub (Str.lstrip s) = true -> Str.contains sub s = true.
Proof.
  induction s as [|c s IH]; [done|]. cbn [Str.lstrip].
  destruct (Char.isspace c); [|done].
  intros H. cbn [Str.contains]. rewrite (IH H). apply orb_true_r.
Qed.

Lemma contains_rstrip_inv (sub s : string) :
  Str.contains sub (Str.rstrip s) = true -> Str.contains sub s = true.
Proof.
  induction s as [|c s IH]; [done|].
  intros H. cbn [Str.contains].
  destruct (Str.startswith sub (Str.rstrip (String c s))) eqn:Hs.
  - by rewrite (startswith_rstrip _ _ Hs).
  - revert H Hs. cbn [Str.rstrip].
    destruct (Str.is_empty (Str.rstrip s) && Char.isspace c).
    + intros H Hs. cbn [Str.contains] in H. by rewrite Hs in H.
    + intros H Hs. cbn [Str.contains] in H. rewrite Hs in H.
      rewrite (IH H). apply orb_true_r.
Qed.

(** What [strip] leaves was in the string. *)
Lemma contains_strip_inv (sub s : string) :
  Str.contains sub (Str.strip s) = true -> Str.contains sub s = true.
Proof.
  unfold Str.strip. intros H.
  by apply contains_lstrip_inv, contains_rstrip_inv.
Qed.

(** The first element of [split(sep, 1)] is a prefix of the string ... *)
Lemma hd_split1_prefix (sep s : string) :
  exists t, s = hd "" (Str.split1 sep s) +:+ t.
Proof.
  induction s as [|c s IH]; cbn [Str.split1].
  - exists "". by destruct (Str.startswith sep "").
  - destruct (Str.startswith sep (String c s)); [by exists (String c s)|].
    destruct IH as [t Ht].
    destruct (Str.split1 sep s) as [|h l]; cbn [hd] in *.
    + exists s. reflexivity.
    + exists t. change (String c h +:+ t) with (String c (h +:+ t)).
      by rewrite <- Ht.
Qed.

(** ... in which the separator does not occur. *)
Lemma hd_split1_no_sep (sep s : string) :
  Str.is_empty sep = false ->
  Str.contains sep (hd "" (Str.split1 sep s)) = false.
Proof.
  intros Hne. induction s as [|c s IH]; cbn [Str.split1].
  - destruct (Str.startswith sep ""); by apply contains_nil_r.
  - destruct (Str.startswith sep (String c s)) eqn:Hs;
      [by apply contains_nil_r|].
    destruct (hd_split1_prefix sep s) as [t Ht].
    assert (Str.contains sep (String c (hd "" (Str.split1 sep s))) = false)
      as Hgoal.
    { cbn [Str.contains]. rewrite IH, orb_false_r.
      destruct (Str.startswith sep (String c (hd "" (Str.split1 sep s))))
        eqn:E; [|done].
      apply (startswith_app_l _ _ t) in E.
      change (String c (hd "" (Str.split1 sep s)) +:+ t)
        with (String c (hd "" (Str.split1 sep s) +:+ t)) in E.
      rewrite <- Ht in E. congruence. }
    by destruct (Str.split1 sep s) as [|h l].
Qed.

Lemma all_no_quote (g : string) :
  Word.all (fun c => negb (Ascii.eqb c Char.dquote)) g = true ->
  Str.contains (String Char.dquote "") g = false.
Proof.
  induction g as [|c g IH]; [done|]. cbn [Word.all Str.contains].
  intros H. apply andb_true_iff in H as [Hc Hg]. rewrite (IH Hg), orb_false_r.
  rewrite startswith_cons_eq. destruct (ascii_dec Char.dquote c) as [<-|]; [|done].
  by rewrite Ascii.eqb_refl in Hc.
Qed.

Lemma search_group_title_no_quote (s g : string) :
  Re.search_group_title s = Some g ->
  Word.all (fun c => negb (Ascii.eqb c Char.dquote)) g = true.
Proof.
  assert (forall t, Re.match_group_title t = Some g ->
            Word.all (fun c => negb (Ascii.eqb c Char.dquote)) g = true) as Hm.
  { intros t. unfold Re.match_group_title.
    destruct (Str.startswith Re.group_title_key t); [|done].
    apply quoted_no_quote. }
  induction s as [|c s IH]; cbn [Re.search_group_title];
    destruct (Re.match_group_title _) as [g'|] eqn:E; try done.
  intros [= ->]. by apply (Hm (String c s)).
Qed.

(** The group title read off an info line holds no double quote. *)
Lemma group_title_of_no_quote (info : string) :
  Str.contains (String Char.dquote "") (M3u.group_title_of info) = false.
Proof.
  apply all_no_quote. unfold M3u.group_title_of.
  destruct (Re.search_group_title info) eqn:E; [|done].
  by apply (search_group_title_no_quote info).
Qed.

End Trimming.

Section ParserExtras.

Import M3u.

(** X1.  The category tests of [parse_m3u] do not depend on how the
    group title is split, stripped and joined again: an excluded word,
    or the word news, occurs in the joined tokens exactly when it occurs
    in the lower-cased group title. *)
Theorem category_tests_read_the_lowered_title (g : string) :
  any_in excluded_words (Str.join " " (category_tokens g))
  = any_in excluded_words (Str.lower g) /\
  Str.contains "news" (Str.join " " (category_tokens g))
  = Str.contains "news" (Str.lower g).
Proof.
  split; [|by apply contains_joined_tokens].
  unfold any_in, excluded_words. cbn [existsb].
  by rewrite !contains_joined_tokens.
Qed.

(** X2.  The group title of an info line is the text between the quotes
    of its first group-title attribute: when the attribute does not
    occur in the text before it and the title holds no double quote, the
    title is read back as it was written, whatever follows. *)
Theorem group_title_round_trip (before title after : string) :
  Str.contains Re.group_title_key before = false ->
  Str.contains (String Char.dquote "") title = false ->
  group_title_of
    (before +:+ Re.group_title_key +:+ title +:+ String Char.dquote after)
  = title.
Proof.
  intros Hb Ht. unfold group_title_of.
  rewrite search_group_title_found; [done|done|].
  clear Hb. induction title as [|c t IH]; [done|].
  cbn [Str.contains Word.all] in *. apply orb_false_elim in Ht as [Hs Ht].
  rewrite (IH Ht), andb_true_r.
  rewrite startswith_cons_eq in Hs.
  destruct (ascii_dec Char.dquote c) as [<-|Hne].
  - by rewrite startswith_nil in Hs.
  - apply negb_true_iff, Ascii.eqb_neq. congruence.
Qed.

Lemma group_title_round_trip_witness :
  group_title_of
    ("#EXTINF:-1 tvg-id=" +:+ Examples.quote "CBC.ca" +:+ " "
     +:+ Re.group_title_key +:+ "News;Canada"
     +:+ String Char.dquote ",CBC News")
  = "News;Canada".
Proof.
  apply (group_title_round_trip
           ("#EXTINF:-1 tvg-id=" +:+ Examples.quote "CBC.ca" +:+ " ")
           "News;Canada" ",CBC News");
    vm_compute; reflexivity.
Defined.

(** A parse in which no turn of the loop appends is empty. *)
Lemma parse_lines_nothing (lines : list string) :
  (forall i chs, snd (iteration lines i chs) = chs) -> parse_lines lines = [].
Proof.
  intros Hturn.
  assert (Forall (fun _ => False) (parse_lines lines)) as H.
  { apply while_Forall; [|constructor].
    intros i chs i' chs' Hit Hchs.
    specialize (Hturn i chs). rewrite Hit in Hturn. simpl in Hturn. by subst. }
  destruct (parse_lines lines); [done|]. by inversion H.
Qed.

Lemma iteration_out_of_range (lines : list string) (i : nat) (chs : list dict) :
  lines !! i = None -> snd (iteration lines i chs) = chs.
Proof.
  intros H. unfold iteration. by rewrite nth_lookup, H.
Qed.

(** X3.  An info line without a group-title attribute never yields a
    channel: its group title is empty, so no country is found.  A
    playlist none of whose lines carries the attribute parses to no
    channel at all. *)
Theorem no_group_title_no_channel :
  (forall lines i chs info,
      lines !! i = Some info ->
      Str.contains Re.group_title_key info = false ->
      group_title_of info = "" /\ snd (iteration lines i chs) = chs) /\
  (forall text,
      Forall (fun l => Str.contains Re.group_title_key l = false)
        (Str.splitlines text) ->
      parse_m3u text = []).
Proof.
  assert (forall info, Str.contains Re.group_title_key info = false ->
            group_title_of info = "") as Hgt.
  { intros info H. unfold group_title_of.
    by rewrite search_group_title_absent. }
  split.
  - intros lines i chs info Hl Hk. split; [by apply Hgt|].
    apply (iteration_no_country _ _ _ info Hl). by rewrite Hgt.
  - intros text Hall. apply parse_lines_nothing. intros i chs.
    destruct (Str.splitlines text !! i) as [info|] eqn:Hl;
      [|by apply iteration_out_of_range].
    apply (iteration_no_country _ _ _ info Hl). rewrite Hgt; [done|].
    rewrite List.Forall_forall in Hall. apply Hall.
    apply list_elem_of_In. by eapply list_elem_of_lookup_2.
Qed.

Lemma no_group_title_no_channel_witness :
  (group_title_of "#EXTINF:-1 tvg-id=x,CBC" = "" /\
   snd (iteration ["#EXTINF:-1 tvg-id=x,CBC"; "http://cbc"] 0 []) = []) /\
  parse_m3u
    (Examples.playlist ["#EXTM3U"; "#EXTINF:-1 tvg-id=x,CBC"; "http://cbc"])
  = [].
Proof.
  destruct no_group_title_no_channel as (Hturn & Hparse).
  split.
  - apply (Hturn _ 0 [] "#EXTINF:-1 tvg-id=x,CBC"); reflexivity.
  - apply Hparse. vm_compute. repeat constructor.
Defined.

(** X6.  Every channel [parse_m3u] returns has exactly the four fields
    name, country, group_title, url, in that order, and agrees with
    itself: its country is the one its own group title gives, its
    lower-cased group title holds no excluded word, and if it holds the
    word news the name contains an allowlisted name. *)
Theorem emitted_channel_agrees_with_itself (text : string) (ch : dict) :
  In ch (parse_m3u text) ->
  exists name country group_title url,
    ch = [("name", VStr name); ("country", VStr country);
          ("group_title", VStr group_title); ("url", VStr url)] /\
    country = derive_country group_title /\
    any_in excluded_words (Str.lower group_title) = false /\
    (Str.contains "news" (Str.lower group_title) = true ->
     any_in allowed_news name = true).
Proof.
  intros Hin. apply parse_lines_inv in Hin
    as (i & info & tail & line & _ & _ & _ & _ & _ & _ & Hx & Hnews & ->).
  eexists _, _, _, _. split; [reflexivity|]. split; [reflexivity|].
  unfold any_in, excluded_words in *. cbn [existsb] in *.
  rewrite !contains_joined_tokens in Hx by reflexivity.
  rewrite contains_joined_tokens in Hnews by reflexivity.
  by split.
Qed.

Lemma emitted_channel_agrees_with_itself_witness :
  exists name country group_title url,
    Examples.channel "CBC" "CA" "Canada" "http://cbc"
    = [("name", VStr name); ("country", VStr country);
       ("group_title", VStr group_title); ("url", VStr url)] /\
    country = derive_country group_title /\
    any_in excluded_words (Str.lower group_title) = false /\
    (Str.contains "news" (Str.lower group_title) = true ->
     any_in allowed_news name = true).
Proof.
  apply (emitted_channel_agrees_with_itself
           (Examples.playlist
              ["#EXTM3U"; Examples.extinf "Canada" "CBC"; "http://cbc"])).
  vm_compute. left. reflexivity.
Defined.

(** X5.  The fields of every channel [parse_m3u] returns are trimmed:
    name and url have no white space around them, the name holds no
    inline tvg- attribute, and the group title holds no double quote. *)
Theorem emitted_fields_are_trimmed (text : string) (ch : dict) :
  In ch (parse_m3u text) ->
  exists name group_title url,
    Py.lookup "name" ch = Some (VStr name) /\
    Py.lookup "group_title" ch = Some (VStr group_title) /\
    Py.lookup "url" ch = Some (VStr url) /\
    Str.strip name = name /\
    Str.contains " tvg-" name = false /\
    Str.strip url = url /\
    Str.contains (String Char.dquote "") group_title = false.
Proof.
  intros Hin. apply parse_lines_inv in Hin
    as (i & info & tail & line & _ & _ & _ & _ & _ & _ & _ & _ & ->).
  eexists _, _, _. repeat split.
  - apply strip_idemp.
  - destruct (Str.contains " tvg-"
                (Str.strip (hd "" (Str.split1 " tvg-" tail)))) eqn:E; [|done].
    apply contains_strip_inv in E.
    by rewrite hd_split1_no_sep in E.
  - apply strip_idemp.
  - apply group_title_of_no_quote.
Qed.

Lemma emitted_fields_are_trimmed_witness :
  exists name group_title url,
    Py.lookup "name" (Examples.channel "CBC" "CA" "Canada" "http://cbc")
    = Some (VStr name) /\
    Py.lookup "group_title" (Examples.channel "CBC" "CA" "Canada" "http://cbc")
    = Some (VStr group_title) /\
    Py.lookup "url" (Examples.channel "CBC" "CA" "Canada" "http://cbc")
    = Some (VStr url) /\
    Str.strip name = name /\
    Str.contains " tvg-" name = false /\
    Str.strip url = url /\
    Str.contains (String Char.dquote "") group_title = false.
Proof.
  apply (emitted_fields_are_trimmed
           (Examples.playlist
              ["#EXTM3U"; Examples.extinf "Canada" "CBC tvg-x"; " http://cbc "])).
  vm_compute. left. reflexivity.
Defined.

End ParserExtras.

Section ParserSize.

Import M3u.

(** What the first turn of the loop costs and yields: it consumes one or
    two lines, and appends at most one channel, for which it consumes an
    info line and the line after it. *)
Lemma iteration_cost (l : string) (lines : list string) (k : nat)
    (new : list dict) :
  iteration (l :: lines) 0 [] = (k, new) ->
  (new = [] /\ 1 <= k <= 2) \/
  (length new = 1 /\ k = 2 /\ Str.startswith "#EXTINF:" l = true
   /\ lines <> []).
Proof.
  intros Hit.
  pose proof (iteration_advance _ _ _ Hit) as Hk.
  destruct (Str.startswith "#EXTINF:" l) eqn:Hm.
  - pose proof Hit as Hit'.
    apply iteration_inv in Hit' as [->|(sg & j & Htry)]; [by left|].
    apply try_block_inv in Htry as [->|(tail & line & _ & Hn & Hrec)];
      [by left|].
    cbv zeta in Hrec. destruct Hrec as (-> & -> & _ & _ & _ & _ & ->).
    right. repeat split; try done.
    + unfold iteration in Hit. cbn [nth] in Hit. rewrite Hm in Hit.
      destruct (try_block (l :: lines) 0 []) as [[sg k'] new'] eqn:E.
      unfold try_block in E. cbn [nth] in E.
      repeat case_match; simplify_eq; done.
    + by destruct lines.
  - rewrite (iteration_other_line (l :: lines) 0 [] l eq_refl Hm) in Hit.
    injection Hit as <- <-. left. split; [done|lia].
Qed.

Lemma filter_drop_le (p : string -> bool) (k : nat) (l : list string) :
  length (List.filter p (drop k l)) <= length (List.filter p l).
Proof.
  revert k. induction l as [|x l IH]; intros [|k]; cbn [drop]; try done.
  cbn [List.filter]. specialize (IH k). destruct (p x); simpl; lia.
Qed.

(** X4.  [parse_m3u] returns at most one channel per info line, and each
    channel uses up two lines of the text: the number of channels is at
    most the number of info lines and at most half the number of lines.
    In particular a text without info lines, or the empty text, gives no
    channel. *)
Theorem channels_are_bounded_by_the_lines (text : string) :
  2 * length (parse_m3u text) <= length (Str.splitlines text) /\
  length (parse_m3u text)
  <= length (List.filter (Str.startswith "#EXTINF:") (Str.splitlines text)).
Proof.
  unfold parse_m3u. generalize (Str.splitlines text). intros lines.
  remember (length lines) as n eqn:Hn. revert lines Hn.
  induction (lt_wf n) as [n _ IH]. intros [|l lines] ->; [by cbn|].
  rewrite parse_lines_step.
  destruct (iteration (l :: lines) 0 []) as [k new] eqn:Hit.
  assert (length (drop k (l :: lines)) < length (l :: lines)) as Hlt.
  { apply iteration_advance in Hit. rewrite length_drop. simpl. lia. }
  destruct (IH _ Hlt (drop k (l :: lines)) eq_refl) as [IH1 IH2].
  rewrite length_app.
  apply iteration_cost in Hit as [[-> Hk]|(Hone & -> & Hm & Hne)].
  - pose proof (filter_drop_le (Str.startswith "#EXTINF:") k (l :: lines)).
    rewrite length_drop in IH1. cbn [length] in *. split; lia.
  - destruct lines as [|x lines]; [done|].
    cbn [drop] in *. cbn [List.filter]. rewrite Hm, Hone.
    rewrite !drop_0 in *.
    destruct (Str.startswith "#EXTINF:" x); cbn [length] in *; split; lia.
Qed.

(** X7.  Playlists concatenate: when the first list of lines is empty or
    does not end in an info line, parsing it followed by a second list
    gives the channels of the first followed by those of the second. *)
Theorem parse_of_concatenated_lines (first second : list string) :
  (forall l, last first = Some l -> Str.startswith "#EXTINF:" l = false) ->
  parse_lines (first ++ second) = parse_lines first ++ parse_lines second.
Proof.
  remember (length first) as n eqn:Hn. revert first Hn.
  induction (lt_wf n) as [n _ IH]. intros first -> Hlast.
  destruct first as [|l [|l2 first]].
  - done.
  - change ([l] ++ second) with (l :: second).
    assert (Str.startswith "#EXTINF:" l = false) as Hl by (by apply Hlast).
    rewrite !parse_lines_step.
    rewrite (iteration_other_line (l :: second) 0 [] l eq_refl Hl).
    by rewrite (iteration_other_line [l] 0 [] l eq_refl Hl).
  - change ((l :: l2 :: first) ++ second)
      with (l :: l2 :: (first ++ second)).
    rewrite !parse_lines_step.
    rewrite (iteration_two_lines l l2 (first ++ second) first).
    destruct (iteration (l :: l2 :: first) 0 []) as [k new] eqn:Hit.
    apply iteration_advance in Hit.
    rewrite <- app_assoc. f_equal.
    change (l :: l2 :: first ++ second)
      with ((l :: l2 :: first) ++ second).
    rewrite drop_app_le by (simpl; lia).
    eapply IH; [|reflexivity|]; [rewrite length_drop; simpl; lia|].
    intros x Hx. apply Hlast.
    destruct k as [|[|[|k]]]; try lia; cbn [drop] in Hx;
      rewrite ?drop_0 in Hx.
    + exact Hx.
    + destruct first as [|y first]; [done|]. exact Hx.
Qed.

Lemma parse_of_concatenated_lines_witness :
  parse_lines
    ([Examples.extinf "Canada" "CBC"; "http://cbc"]
     ++ [Examples.extinf "UK" "Film4"; "http://film4"])
  = parse_lines [Examples.extinf "Canada" "CBC"; "http://cbc"]
    ++ parse_lines [Examples.extinf "UK" "Film4"; "http://film4"].
Proof.
  apply parse_of_concatenated_lines.
  intros l [= <-]. reflexivity.
Defined.

End ParserSize.

Section JsonExtras.

Import Json.

(** Whatever the record, its projection does not pass the filter again:
    it has no languages. *)
Lemma keep_channel_entry_of (ch : dict) :
  keep_channel (VDict (entry_of ch)) = inr None.
Proof.
  unfold keep_channel. cbn [get_method Result.bind].
  destruct (existsb (Py.eq_str (Py.get (entry_of ch) "country" VNone))
              countries); [|done].
  reflexivity.
Qed.

(** The loop keeps the records in their order. *)
Lemma filter_loop_sublist (data : list value) (acc out : list dict) :
  filter_loop data acc = inr out ->
  exists chs,
    sublist (map VDict chs) data /\ out = acc ++ map entry_of chs.
Proof.
  revert acc. induction data as [|v data IH]; intros acc; simpl.
  - intros [= <-]. exists []. by rewrite app_nil_r.
  - destruct (keep_channel v) as [e|[entry|]] eqn:Hk; simpl; [done| |].
    + intros H. apply IH in H as (chs & Hsub & ->).
      apply keep_channel_inv in Hk
        as (ch & ? & ? & -> & _ & _ & _ & _ & _ & _ & _ & ->).
      exists (ch :: chs). split; [by apply sublist_skip|].
      by rewrite <- app_assoc.
    + intros H. apply IH in H as (chs & Hsub & ->).
      exists chs. split; [by apply sublist_cons|done].
Qed.

(** X8.  The JSON filter keeps the records in their input order and
    emits one projected entry per record kept: the output is the
    projection of a sub-list of the input, so it is never longer than
    the input. *)
Theorem json_filter_keeps_the_order (data : list value) (filtered : list dict) :
  filter_channels (VList data) = inr filtered ->
  exists chs,
    sublist (map VDict chs) data /\
    filtered = map entry_of chs /\
    length filtered <= length data.
Proof.
  unfold filter_channels. cbn [iter Result.bind]. intros H.
  apply filter_loop_sublist in H as (chs & Hsub & ->).
  exists chs. repeat split; [done|].
  apply sublist_length in Hsub. rewrite length_map in Hsub.
  cbn [app]. by rewrite length_map.
Qed.

Lemma json_filter_keeps_the_order_witness :
  exists chs,
    sublist (map VDict chs)
      [Examples.record "TSN.ca" "TSN" "CA" "eng" "Sports" (VBool false);
       Examples.record "Film4.uk" "Film4" "GB" "eng" "Movies" (VBool false)] /\
    [Examples.entry "Film4.uk" "Film4" "GB"] = map entry_of chs /\
    length [Examples.entry "Film4.uk" "Film4" "GB"] <= 2.
Proof.
  apply (json_filter_keeps_the_order
           [Examples.record "TSN.ca" "TSN" "CA" "eng" "Sports" (VBool false);
            Examples.record "Film4.uk" "Film4" "GB" "eng" "Movies"
              (VBool false)]).
  vm_compute. reflexivity.
Defined.

(** X9.  The filter cannot be run on its own output: the entries it
    emits carry no languages, so filtering them again keeps none. *)
Theorem json_filter_drops_its_own_output (data : list value)
    (filtered : list dict) :
  filter_channels (VList data) = inr filtered ->
  filter_channels (VList (map VDict filtered)) = inr [].
Proof.
  unfold filter_channels. cbn [iter Result.bind]. intros H.
  apply filter_loop_sublist in H as (chs & _ & ->). cbn [app].
  induction chs as [|ch chs IH]; [done|].
  cbn [map filter_loop]. by rewrite keep_channel_entry_of.
Qed.

End JsonExtras.

Lemma json_filter_drops_its_own_output_witness :
  Json.filter_channels
    (VList (map VDict [Examples.entry "Film4.uk" "Film4" "GB"]))
  = inr [].
Proof.
  apply (json_filter_drops_its_own_output
           [Examples.record "Film4.uk" "Film4" "GB" "eng" "Movies"
              (VBool false)]).
  vm_compute. reflexivity.
Defined.

Section JsonErrors.

Import Json.

(** An exception in one turn of the loop ends the loop, whatever the
    records before and after. *)
Lemma filter_loop_raises (data : list value) (acc : list dict) (v : value)
    (e : exn) :
  In v data -> keep_channel v = inl e ->
  exists e', filter_loop data acc = inl e'.
Proof.
  revert acc. induction data as [|x data IH]; intros acc; [done|].
  intros [->|Hin] Hv; cbn [filter_loop].
  - rewrite Hv. cbn [Result.bind]. eauto.
  - destruct (keep_channel x) as [e'|kept]; cbn [Result.bind]; [eauto|].
    by apply IH.
Qed.

(** X10.  The JSON path is all or nothing: one element of the decoded
    list that is not an object makes the whole task fail, with the
    failure line as result and without any file written, whatever the
    other records are. *)
Theorem one_bad_record_fails_the_json_task
    (w : World) (fs : files) (name url filename : string) (r : Response)
    (data : list value) (v : value) :
  requests_get w url = inr r ->
  raise_for_status r = None ->
  json r = inr (VList data) ->
  In v data ->
  (forall ch, v <> VDict ch) ->
  exists e,
    run_task w fs name url filename true
    = (fs, filename +:+ " FAILED: " +:+ str_exn e).
Proof.
  intros Hget Hstatus Hjson Hin Hbad.
  assert (exists e, keep_channel v = inl e) as [e He].
  { destruct v; try (eexists; reflexivity). by destruct (Hbad d). }
  destruct (filter_loop_raises data [] v e Hin He) as [e' He'].
  exists e'. unfold run_task, try_task.
  rewrite Hget, Hstatus, Hjson. cbn [Result.bind].
  unfold filter_channels. cbn [iter Result.bind]. by rewrite He'.
Qed.

Lemma one_bad_record_fails_the_json_task_witness :
  exists e,
    run_task
      (Examples.world_of
         (mk_response None ""
            (inr (VList [Examples.record "Film4.uk" "Film4" "GB" "eng"
                           "Movies" (VBool false);
                         VNone]))))
      ∅ "iptv-org JSON" "https://channels" "1_iptv-org_full.csv" true
    = (∅, "1_iptv-org_full.csv" +:+ " FAILED: " +:+ str_exn e).
Proof.
  apply (one_bad_record_fails_the_json_task _ ∅ _ _ _
           (mk_response None ""
              (inr (VList [Examples.record "Film4.uk" "Film4" "GB" "eng"
                             "Movies" (VBool false);
                           VNone])))
           [Examples.record "Film4.uk" "Film4" "GB" "eng" "Movies"
              (VBool false);
            VNone]
           VNone); try reflexivity.
  - right. left. reflexivity.
  - discriminate.
Defined.

(** X11.  Only a decoded list can yield entries: for a body that decodes
    to anything else (an object, a string, a number, null) the filter
    either raises or, for the empty object and the empty string, keeps
    nothing. *)
Theorem only_a_list_yields_entries (data : value) (filtered : list dict) :
  filter_channels data = inr filtered ->
  filtered <> [] ->
  exists items, data = VList items.
Proof.
  unfold filter_channels.
  destruct data as [| | | |s|items|d]; cbn [iter Result.bind]; try done.
  - destruct s as [|c s]; cbn; [by intros [= <-]|done].
  - eauto.
  - destruct d as [|[k v] d]; cbn; [by intros [= <-]|done].
Qed.

Lemma only_a_list_yields_entries_witness :
  exists items,
    VList [Examples.record "Film4.uk" "Film4" "GB" "eng" "Movies"
             (VBool false)]
    = VList items.
Proof.
  apply (only_a_list_yields_entries _
           [Examples.entry "Film4.uk" "Film4" "GB"]).
  - vm_compute. reflexivity.
  - discriminate.
Defined.

(** X12.  Missing keys.  A record without a country, or without
    languages, is dropped without any exception.  A record with an
    accepted country and an English language but no NSFW flag and no
    categories is kept, and the keys it lacks among id, name, network
    and logo are written as empty strings. *)
Theorem missing_keys_take_their_defaults :
  (forall ch,
      Py.lookup "country" ch = None -> keep_channel (VDict ch) = inr None) /\
  (forall ch,
      Py.lookup "languages" ch = None -> keep_channel (VDict ch) = inr None) /\
  (forall ch codes,
      existsb (Py.eq_str (Py.get ch "country" VNone)) countries = true ->
      language_codes ch = inr codes ->
      In (VStr "eng") codes ->
      Py.lookup "is_nsfw" ch = None ->
      Py.lookup "categories" ch = None ->
      keep_channel (VDict ch) = inr (Some (entry_of ch))) /\
  (forall ch key,
      In key ["id"; "name"; "network"; "logo"] ->
      Py.lookup key ch = None ->
      Py.lookup key (entry_of ch) = Some (VStr "")).
Proof.
  repeat apply conj.
  - intros ch Hc. unfold keep_channel. cbn [get_method Result.bind].
    unfold Py.get. by rewrite Hc.
  - intros ch Hl. unfold keep_channel. cbn [get_method Result.bind].
    destruct (existsb (Py.eq_str (Py.get ch "country" VNone)) countries);
      [|done].
    cbn [negb]. unfold language_codes, Py.get. by rewrite Hl.
  - intros ch codes Hc Hcodes Heng Hn Hcat.
    unfold keep_channel. cbn [get_method Result.bind].
    rewrite Hc, Hcodes. cbn [negb Result.bind].
    assert (existsb (fun c => Py.eq_str c "eng") codes = true) as ->.
    { apply existsb_exists. exists (VStr "eng"). split; [done|].
      by apply eq_str_true. }
    unfold category_names, Py.get. by rewrite Hn, Hcat.
  - intros ch key Hkey Hl. unfold entry_of, Py.get. simpl in Hkey.
    destruct Hkey as [<-|[<-|[<-|[<-|[]]]]]; by rewrite Hl.
Qed.

Lemma missing_keys_take_their_defaults_witness :
  keep_channel (VDict [("id", VStr "x"); ("languages", VList [])]) = inr None /\
  keep_channel (VDict [("id", VStr "x"); ("country", VStr "CA")]) = inr None /\
  keep_channel
    (VDict [("country", VStr "CA");
            ("languages", VList [VDict [("code", VStr "eng")]])])
  = inr (Some
           (entry_of
              [("country", VStr "CA");
               ("languages", VList [VDict [("code", VStr "eng")]])])) /\
  Py.lookup "logo"
    (entry_of
       [("country", VStr "CA");
        ("languages", VList [VDict [("code", VStr "eng")]])])
  = Some (VStr "").
Proof.
  destruct missing_keys_take_their_defaults as (Hc & Hl & Hkeep & Hdef).
  repeat apply conj.
  - apply Hc. reflexivity.
  - apply Hl. reflexivity.
  - apply (Hkeep _ [VStr "eng"]); try reflexivity. left. reflexivity.
  - apply Hdef; [|reflexivity]. simpl. tauto.
Defined.

End JsonErrors.

Section TaskExtras.

Lemma parse_m3u_keys (text : string) :
  Forall (fun d => Py.keys d = ["name"; "country"; "group_title"; "url"])
    (M3u.parse_m3u text).
Proof.
  apply List.Forall_forall. intros ch Hin.
  by apply parse_lines_inv in Hin
    as (? & ? & ? & ? & _ & _ & _ & _ & _ & _ & _ & _ & ->).
Qed.

(** X13.  On the playlist path, a task whose fetch answers without error
    status and whose output file opens always succeeds: it writes the
    header name, country, group_title, url and one row per parsed
    channel, in order, and reports that number of channels. *)
Theorem playlist_task_writes_its_channels
    (w : World) (fs : files) (name url filename : string) (r : Response) :
  requests_get w url = inr r ->
  raise_for_status r = None ->
  open_w w (os_path_join OUTPUT_DIR filename) = None ->
  run_task w fs name url filename false
  = (<[os_path_join OUTPUT_DIR filename :=
         Csv.mk_file ["name"; "country"; "group_title"; "url"]
           (map (fun d =>
                   map (fun k => Py.get d k (VStr ""))
                     ["name"; "country"; "group_title"; "url"])
              (M3u.parse_m3u (text r)))]> fs,
     filename +:+ arrow +:+ Str.of_nat (length (M3u.parse_m3u (text r)))
     +:+ " channels").
Proof.
  intros Hget Hstatus Hopen. unfold run_task, try_task.
  rewrite Hget, Hstatus. unfold write_csv. rewrite Hopen.
  by rewrite (writerows_same_keys _ _ [] (parse_m3u_keys (text r))).
Qed.

Lemma playlist_task_writes_its_channels_witness :
  run_task
    (Examples.world_of
       (mk_response None
          (Examples.playlist [Examples.extinf "Canada" "CBC"; "http://cbc"])
          (inl (Raised "Expecting value"))))
    ∅ "Canada M3U" "https://ca" "4_canada_kitchener.csv" false
  = (<[os_path_join OUTPUT_DIR "4_canada_kitchener.csv" :=
         Csv.mk_file ["name"; "country"; "group_title"; "url"]
           (map (fun d =>
                   map (fun k => Py.get d k (VStr ""))
                     ["name"; "country"; "group_title"; "url"])
              (M3u.parse_m3u
                 (Examples.playlist
                    [Examples.extinf "Canada" "CBC"; "http://cbc"])))]> ∅,
     "4_canada_kitchener.csv" +:+ arrow
     +:+ Str.of_nat
           (length
              (M3u.parse_m3u
                 (Examples.playlist
                    [Examples.extinf "Canada" "CBC"; "http://cbc"])))
     +:+ " channels").
Proof.
  apply (playlist_task_writes_its_channels _ ∅ _ _ _
           (mk_response None
              (Examples.playlist [Examples.extinf "Canada" "CBC"; "http://cbc"])
              (inl (Raised "Expecting value")))); reflexivity.
Defined.

(** What a task does to the files: nothing, or one table put at its own
    path; neither that table nor the result line depends on the files
    that are already there. *)
Lemma run_task_shape (w : World) (name url filename : string)
    (is_json : bool) :
  exists (table : option Csv.file) (line : string),
    forall fs,
      run_task w fs name url filename is_json
      = (match table with
         | Some t => <[os_path_join OUTPUT_DIR filename := t]> fs
         | None => fs
         end, line) /\
      (table = None <->
       exists e, snd (try_task w fs url filename is_json) = inl e) /\
      (forall t, table = Some t ->
         line = filename +:+ arrow +:+ Str.of_nat (length (Csv.rows t))
                +:+ " channels").
Proof.
  unfold run_task, try_task.
  destruct (requests_get w url) as [e|r];
    [exists None; eexists; intros fs; repeat split; eauto; done|].
  destruct (raise_for_status r) as [e|];
    [exists None; eexists; intros fs; repeat split; eauto; done|].
  destruct is_json.
  - destruct (let* data := json r in Json.filter_channels data)
      as [e|filtered] eqn:Hf;
      [exists None; eexists; intros fs; repeat split; eauto; done|].
    assert (exists data, Json.filter_channels data = inr filtered)
      as [data Hdata].
    { destruct (json r) as [e|data]; [done|]. by exists data. }
    pose proof (filter_channels_keys _ _ Hdata) as Hkeys.
    unfold write_csv.
    destruct (open_w w (os_path_join OUTPUT_DIR filename)) as [e|];
      [exists None; eexists; intros fs; repeat split; eauto; done|].
    assert (match filtered with
            | first :: _ => Py.keys first
            | [] => ["name"]
            end = ["id"; "name"; "network"; "country"; "logo"]
            \/ filtered = []) as [Hfn| ->].
    { destruct filtered; [by right|left]. by inversion Hkeys. }
    + rewrite Hfn, (writerows_same_keys _ _ [] Hkeys).
      eexists (Some _), _. intros fs. repeat split.
      * intros [=].
      * intros [e [=]].
      * intros t [= <-]. cbn [Csv.rows app]. by rewrite length_map.
    + eexists (Some _), _. intros fs. cbn. repeat split.
      * intros [=].
      * intros [e [=]].
      * by intros t [= <-].
  - unfold write_csv.
    destruct (open_w w (os_path_join OUTPUT_DIR filename)) as [e|];
      [exists None; eexists; intros fs; repeat split; eauto; done|].
    rewrite (writerows_same_keys _ _ [] (parse_m3u_keys (text r))).
    eexists (Some _), _. intros fs. repeat split.
    + intros [=].
    + intros [e [=]].
    + intros t [= <-]. cbn [Csv.rows app]. by rewrite length_map.
Qed.

End TaskExtras.

Section TaskFiles.











End TaskFiles.

Section ResultLines.

(** X16.  Every result line of [run_task], success or failure, begins
    with the task's output file name, whatever the world does. *)
Theorem result_line_starts_with_the_file_name
    (w : World) (fs : files) (name url filename : string) (is_json : bool) :
  Str.startswith filename (snd (run_task w fs name url filename is_json))
  = true.
Proof.
  destruct (run_task_shape w name url filename is_json) as (table & line & H).
  destruct (H fs) as (Hrun & Hnone & Hsome).
  destruct table as [t|].
  - rewrite Hrun. cbn [snd]. rewrite (Hsome t eq_refl). apply startswith_app.
  - destruct (proj1 Hnone eq_refl) as [e He].
    unfold run_task. destruct (try_task w fs url filename is_json) as [fs' r].
    cbn [snd] in *. subst r. apply startswith_app.
Qed.

End ResultLines.

Section ParserCompleteness.

Import M3u.

(** X17.  The parser misses no entry: wherever in the text an info line
    with a comma stands directly before a line that, stripped, starts
    with http, and the group title of the info line names a country,
    holds no excluded word and, if it holds news, the display name
    contains an allowlisted name, the channel of that entry is among the
    channels returned, with the stripped name, the derived country, the
    group title and the stripped URL. *)
Theorem every_well_formed_entry_is_emitted
    (text : string) (i : nat) (info tail line : string) :
  Str.splitlines text !! i = Some info ->
  Str.splitlines text !! S i = Some line ->
  Str.startswith "#EXTINF:" info = true ->
  Str.split1 "," info !! 1 = Some tail ->
  Str.startswith "http" (Str.strip line) = true ->
  derive_country (group_title_of info) <> "" ->
  any_in excluded_words
    (Str.join " " (category_tokens (group_title_of info))) = false ->
  (Str.contains "news"
     (Str.join " " (category_tokens (group_title_of info))) = true ->
   any_in allowed_news (Str.strip (hd "" (Str.split1 " tvg-" tail))) = true) ->
  In (Examples.channel (Str.strip (hd "" (Str.split1 " tvg-" tail)))
        (derive_country (group_title_of info)) (group_title_of info)
        (Str.strip line))
     (parse_m3u text).
Proof.
  intros Hinfo Hline Hmarker Htail Hurl Hcountry Hexcl Hnews.
  unfold parse_m3u.
  by apply (parse_lines_complete info tail line) with (i := i).
Qed.

Lemma every_well_formed_entry_is_emitted_witness :
  In (Examples.channel "BBC World News" "GB" "News|UK" "http://bbc")
     (parse_m3u
        (Examples.playlist
           ["#EXTM3U"; Examples.extinf "Sports|US" "ESPN"; "http://espn";
            Examples.extinf "News|UK" "BBC World News"; " http://bbc ";
            Examples.extinf "Canada" "CBC"])).
Proof.
  apply (every_well_formed_entry_is_emitted _ 3
           (Examples.extinf "News|UK" "BBC World News") "BBC World News"
           " http://bbc "); try (vm_compute; reflexivity).
  vm_compute. discriminate.
Defined.

End ParserCompleteness.
